(** * CodeSage frontend: a shallow embedding of the view logic

    The first half of the file follows the frontend sources:
    - [services/api.ts]                         (module [Api])
    - [components/CodeAnalysis.tsx]             (module [CodeAnalysis])
    - [components/MarkdownRenderer.tsx]         (module [MarkdownRenderer])
    - [components/CodeQuestion.tsx]             (module [CodeQuestion])
    - [components/DocumentationGenerator.tsx]   (module [DocumentationGenerator])

    JavaScript strings are sequences of UTF-16 code units, JavaScript
    numbers are binary64 floats, and the handful of regular expressions the
    components use are run by a small backtracking matcher that follows the
    ECMAScript matching order (leftmost match, greedy quantifiers).  An
    event handler is the list of the calls it makes, in order: the state
    setters of the component and the effects on the outside (requests,
    alerts, downloads); the remote service is a function from requests to
    outcomes.

    The second half states and proves the properties, one module of facts
    per component. *)

From Stdlib Require Import Ascii String Floats.
From Stdlib Require Import Bool Arith NArith ZArith Lia List.
Import ListNotations.

Set Implicit Arguments.

(* ================================================================== *)
(** * JavaScript strings *)
(* ================================================================== *)

Module JS.

(** A string value: its UTF-16 code units. *)
Definition jsstring := list N.

(** Literals: an ASCII Rocq string read as code units. *)
Definition code (a : ascii) : N := N_of_ascii a.

Definition js (s : string) : jsstring := map code (list_ascii_of_string s).

(** [ToBoolean] on a string: the empty string is the only falsy one. *)
Definition truthy (s : jsstring) : bool :=
  match s with [] => false | _ :: _ => true end.

(** [a || b] on an optional string ([undefined]/[null] is [None]). *)
Definition or_else (a : option jsstring) (b : jsstring) : jsstring :=
  match a with
  | Some s => if truthy s then s else b
  | None => b
  end.

(** ECMAScript [LineTerminator]: LF, CR, LS, PS. *)
Definition isLineTerminator (c : N) : bool :=
  ((c =? 10) || (c =? 13) || (c =? 8232) || (c =? 8233))%N.

(** ECMAScript [WhiteSpace] and [LineTerminator], the set [\s] and
    [String.prototype.trim] use. *)
Definition isWhiteSpace (c : N) : bool :=
  (((9 <=? c) && (c <=? 13)) || (c =? 32) || (c =? 160) || (c =? 5760)
   || ((8192 <=? c) && (c <=? 8202)) || (c =? 8232) || (c =? 8233)
   || (c =? 8239) || (c =? 8287) || (c =? 12288) || (c =? 65279))%N.

(** [\w]: ASCII letters, digits and the underscore. *)
Definition isWordChar (c : N) : bool :=
  (((48 <=? c) && (c <=? 57)) || ((65 <=? c) && (c <=? 90))
   || (c =? 95) || ((97 <=? c) && (c <=? 122)))%N.

Fixpoint trimStart (s : jsstring) : jsstring :=
  match s with
  | c :: s' => if isWhiteSpace c then trimStart s' else s
  | [] => []
  end.

Definition trimEnd (s : jsstring) : jsstring := rev (trimStart (rev s)).

(** [String.prototype.trim]. *)
Definition trim (s : jsstring) : jsstring := trimEnd (trimStart s).

Fixpoint startsWith (p s : jsstring) : bool :=
  match p, s with
  | [], _ => true
  | a :: p', b :: s' => (a =? b)%N && startsWith p' s'
  | _ :: _, [] => false
  end.

(** [String.prototype.includes]. *)
Fixpoint includes (s p : jsstring) : bool :=
  startsWith p s || match s with
                    | [] => false
                    | _ :: s' => includes s' p
                    end.

(** [String.prototype.toLowerCase] on the Basic Latin letters; every
    other code unit is kept.  The lowercased text is only searched for
    ASCII tokens. *)
Definition lowerUnit (c : N) : N :=
  if ((65 <=? c) && (c <=? 90))%N then (c + 32)%N else c.

Definition toLowerCase (s : jsstring) : jsstring := map lowerUnit s.

End JS.

Import JS.

(* ================================================================== *)
(** * Regular expressions *)
(* ================================================================== *)

Module RegExp.

(** Character classes that occur in the sources. *)
Inductive cls :=
| One (c : N)               (* a single character  *)
| Space                     (* \s                  *)
| Word                      (* \w                  *)
| NoneOf (l : list N).      (* [^...]              *)

Definition mem (k : cls) (c : N) : bool :=
  match k with
  | One d => (c =? d)%N
  | Space => isWhiteSpace c
  | Word => isWordChar c
  | NoneOf l => negb (existsb (N.eqb c) l)
  end.

(** Pattern terms, in sequence. *)
Inductive atom :=
| Chr (c : N)                    (* literal character           *)
| Rep (k : cls) (min : nat)      (* greedy k{min,}              *)
| Bol                            (* ^                           *)
| Eol.                           (* $                           *)

Abbreviation Star k := (Rep k 0).
Abbreviation Plus k := (Rep k 1).

Record regex := {
  atoms : list atom;
  global : bool;          (* the g flag *)
  multiline : bool        (* the m flag *)
}.

Section Matcher.

Variable m : bool.      (* multiline *)

(** [^]: start of input, or after a line terminator with the m flag. *)
Definition at_bol (prev : option N) : bool :=
  match prev with
  | None => true
  | Some c => m && isLineTerminator c
  end.

(** [$]: end of input, or before a line terminator with the m flag. *)
Definition at_eol (s : jsstring) : bool :=
  match s with
  | [] => true
  | c :: _ => m && isLineTerminator c
  end.

Definition stop (min : nat) (k : option N -> jsstring -> option nat)
    (prev : option N) (s : jsstring) : option nat :=
  match min with
  | 0 => k prev s
  | S _ => None
  end.

(** Greedy repetition: one more character is tried first; when the rest
    of the pattern then fails, the repetition ends here (backtracking). *)
Fixpoint many (c : cls) (k : option N -> jsstring -> option nat)
    (min : nat) (prev : option N) (s : jsstring) {struct s} : option nat :=
  match s with
  | x :: s' =>
      if mem c x then
        match many c k (pred min) (Some x) s' with
        | Some n => Some (S n)
        | None => stop min k prev s
        end
      else stop min k prev s
  | [] => stop min k prev s
  end.

(** The length of the match of the pattern at the start of [s], where
    [prev] is the character before it. *)
Fixpoint match_here (r : list atom) (prev : option N) (s : jsstring)
    {struct r} : option nat :=
  match r with
  | [] => Some 0
  | Chr c :: r' =>
      match s with
      | x :: s' =>
          if (x =? c)%N then option_map S (match_here r' (Some x) s')
          else None
      | [] => None
      end
  | Rep c min :: r' => many c (match_here r') min prev s
  | Bol :: r' => if at_bol prev then match_here r' prev s else None
  | Eol :: r' => if at_eol s then match_here r' prev s else None
  end.

(** Leftmost match: its index and its length. *)
Fixpoint search (r : list atom) (prev : option N) (s : jsstring)
    : option (nat * nat) :=
  match match_here r prev s with
  | Some n => Some (0, n)
  | None =>
      match s with
      | [] => None
      | c :: s' =>
          match search r (Some c) s' with
          | Some (i, n) => Some (S i, n)
          | None => None
          end
      end
  end.

(** Replacement of every match, scanning left to right; [skip] counts the
    characters of the current match still to be dropped.  After an empty
    match the scan advances by one character. *)
Fixpoint replace_all (r : list atom) (by_ : jsstring) (prev : option N)
    (skip : nat) (s : jsstring) {struct s} : jsstring :=
  match skip with
  | S k =>
      match s with
      | c :: s' => replace_all r by_ (Some c) k s'
      | [] => []
      end
  | 0 =>
      match match_here r prev s with
      | Some (S n) =>
          by_ ++ match s with
                 | c :: s' => replace_all r by_ (Some c) n s'
                 | [] => []
                 end
      | Some 0 =>
          by_ ++ match s with
                 | c :: s' => c :: replace_all r by_ (Some c) 0 s'
                 | [] => []
                 end
      | None =>
          match s with
          | c :: s' => c :: replace_all r by_ (Some c) 0 s'
          | [] => []
          end
      end
  end.

Definition replace_first (r : list atom) (by_ : jsstring) (s : jsstring)
    : jsstring :=
  match search r None s with
  | Some (i, n) => firstn i s ++ by_ ++ skipn (i + n) s
  | None => s
  end.

End Matcher.

(** [RegExp.prototype.exec] from index 0: the index and text of the match. *)
Definition exec (r : regex) (s : jsstring) : option (nat * jsstring) :=
  match search (multiline r) (atoms r) None s with
  | Some (i, n) => Some (i, firstn n (skipn i s))
  | None => None
  end.

(** [String.prototype.replace] with a regular expression and a replacement
    string without [$] patterns. *)
Definition replace (r : regex) (by_ : jsstring) (s : jsstring) : jsstring :=
  if global r then replace_all (multiline r) (atoms r) by_ None 0 s
  else replace_first (multiline r) (atoms r) by_ s.

End RegExp.

Import RegExp.

(* ================================================================== *)
(** * services/api.ts *)
(* ================================================================== *)

Module Api.

(** The fields of [AnalysisResult] the components below read.  The value
    arrives as unvalidated JSON and is passed around as [any], so the two
    string fields may be missing. *)
Module AnalysisResult.
Record basic := { complexity_score : float }.
Record ai := { code_quality_score : option float }.   (* number | null *)
Record t := {
  filename : option jsstring;
  language : option jsstring;
  basic_analysis : basic;
  ai_enhancement : ai
}.
End AnalysisResult.

Module QuestionResponse.
Record t := { answer : jsstring; question : jsstring; language : jsstring }.
End QuestionResponse.

Module DocumentationResponse.
Record t := {
  filename : jsstring; language : jsstring; documentation : jsstring
}.
End DocumentationResponse.

(** [new Blob(parts, {type})] and [new File(bits, name, {type})]. *)
Record Blob := { blobParts : list jsstring; blobType : jsstring }.
Record File := { fileBits : list Blob; name : jsstring; fileType : jsstring }.

(** The text a file holds. *)
Definition text (f : File) : jsstring :=
  concat (flat_map blobParts (fileBits f)).

Inductive FormValue :=
| Text (s : jsstring)
| Upload (f : File).

(** A POST request with a multipart form body. *)
Record Request := { url : jsstring; formData : list (jsstring * FormValue) }.

(** What a rejected call carries: [err.response?.data?.detail]. *)
Record AxiosError := { detail : option jsstring }.

(** The remote service, as seen through [api.post]: a request is answered
    by a rejection or by the body of the response. *)
Definition Post (A : Type) := Request -> AxiosError + A.

(** Both calls return the request they issue next to its outcome. *)
Definition askQuestion (post : Post QuestionResponse.t)
    (question codeContent : jsstring) (language : option jsstring)
    : Request * (AxiosError + QuestionResponse.t) :=
  let language := match language with Some l => l | None => js "Generic" end in
  let formData := [ (js "question", Text question);
                    (js "code_content", Text codeContent);
                    (js "language", Text language) ] in
  let request := {| url := js "/question"; formData := formData |} in
  (request, post request).

Definition generateDocumentation (post : Post DocumentationResponse.t)
    (file : File) : Request * (AxiosError + DocumentationResponse.t) :=
  let formData := [ (js "file", Upload file) ] in
  let request := {| url := js "/documentation"; formData := formData |} in
  (request, post request).

Definition analyzeCode (post : Post AnalysisResult.t) (file : File)
    : Request * (AxiosError + AnalysisResult.t) :=
  let formData := [ (js "file", Upload file) ] in
  let request := {| url := js "/analyze"; formData := formData |} in
  (request, post request).

End Api.

(* ================================================================== *)
(** * components/CodeAnalysis.tsx *)
(* ================================================================== *)

Module CodeAnalysis.
Import Api.

Definition green : jsstring := js "text-green-600".
Definition yellow : jsstring := js "text-yellow-600".
Definition red : jsstring := js "text-red-600".
Definition gray : jsstring := js "text-gray-600".

Definition getComplexityColor (score : float) : jsstring :=
  if (score <? 3)%float then green
  else if (score <? 6)%float then yellow
  else red.

(** [!score] for [score : number | null]: true for [null], both zeros
    and NaN. *)
Definition falsy (score : option float) : bool :=
  match score with
  | None => true
  | Some x => is_zero x || is_nan x
  end.

(** [ToNumber] of [number | null]. *)
Definition toNumber (score : option float) : float :=
  match score with
  | Some x => x
  | None => 0%float
  end.

Definition getQualityColor (score : option float) : jsstring :=
  if falsy score then gray
  else if (8 <=? toNumber score)%float then green
  else if (6 <=? toNumber score)%float then yellow
  else red.

(** The class of the complexity paragraph. *)
Definition complexityClass (result : AnalysisResult.t) : jsstring :=
  getComplexityColor
    (AnalysisResult.complexity_score (AnalysisResult.basic_analysis result)).

(** The class of the quality paragraph, which is rendered only when
    [code_quality_score !== null]. *)
Definition qualityClass (result : AnalysisResult.t) : option jsstring :=
  match AnalysisResult.code_quality_score
          (AnalysisResult.ai_enhancement result) with
  | Some x => Some (getQualityColor (Some x))
  | None => None
  end.

(** ** The code structure card *)

(** An entry of [basic_analysis.functions] and of [basic_analysis.classes];
    the optional fields may be missing. *)
Record FunctionInfo := {
  fn_name : jsstring;
  fn_line_start : float;
  fn_line_end : float;
  parameters : option (list jsstring);
  docstring : option jsstring
}.

Record ClassInfo := {
  cls_name : jsstring;
  cls_line_start : float;
  cls_line_end : float;
  methods : option (list jsstring)
}.

(** [Array.prototype.join]. *)
Fixpoint join (sep : jsstring) (l : list jsstring) : jsstring :=
  match l with
  | [] => []
  | [x] => x
  | x :: l' => x ++ sep ++ join sep l'
  end.

(** The text of an optional paragraph [list && list.length > 0 && label
    list.join(', ')]. *)
Definition listed (label : jsstring) (l : option (list jsstring))
    : option jsstring :=
  match l with
  | Some (x :: l') => Some (label ++ join (js ", ") (x :: l'))
  | _ => None
  end.

(** The text of [docstring && <p>docstring.substring(0, 100)...</p>]. *)
Definition preview (docstring : option jsstring) : option jsstring :=
  match docstring with
  | Some d => if truthy d then Some (firstn 100 d ++ js "...") else None
  | None => None
  end.

(** What a card shows: the name, the two line numbers, and the optional
    paragraphs. *)
Record Card := {
  title : jsstring;
  lines : float * float;
  members : option jsstring;
  note : option jsstring
}.

Definition functionCard (f : FunctionInfo) : Card :=
  {| title := fn_name f;
     lines := (fn_line_start f, fn_line_end f);
     members := listed (js "Parameters: ") (parameters f);
     note := preview (docstring f) |}.

Definition classCard (c : ClassInfo) : Card :=
  {| title := cls_name c;
     lines := (cls_line_start c, cls_line_end c);
     members := listed (js "Methods: ") (methods c);
     note := None |}.

(** [functions.slice(0, 10).map(...)] and [classes.slice(0, 10).map(...)]. *)
Definition functionCards (functions : list FunctionInfo) : list Card :=
  map functionCard (firstn 10 functions).

Definition classCards (classes : list ClassInfo) : list Card :=
  map classCard (firstn 10 classes).

End CodeAnalysis.

(* ================================================================== *)
(** * components/MarkdownRenderer.tsx *)
(* ================================================================== *)

Module MarkdownRenderer.

Definition LF : N := 10.
Definition CR : N := 13.
Definition dash : N := code "-".

(** [---+] *)
Definition rule : list atom := [Chr dash; Chr dash; Plus (One dash)].

Definition re (g m : bool) (a : list atom) : regex :=
  {| atoms := a; global := g; multiline := m |}.

(** [/\n---+\s*$/g] *)
Definition re_nl_rule_end : regex :=
  re true false (Chr LF :: rule ++ [Star Space; Eol]).
(** [/---+\s*$/g] *)
Definition re_rule_end_g : regex :=
  re true false (rule ++ [Star Space; Eol]).
(** [/\n---+\n/g] *)
Definition re_nl_rule_nl : regex :=
  re true false (Chr LF :: rule ++ [Chr LF]).
(** [/\n---+\r\n/g] *)
Definition re_nl_rule_crlf : regex :=
  re true false (Chr LF :: rule ++ [Chr CR; Chr LF]).
(** [/\r\n---+\r\n/g] *)
Definition re_crlf_rule_crlf : regex :=
  re true false (Chr CR :: Chr LF :: rule ++ [Chr CR; Chr LF]).
(** [/^---+\s*$/gm] *)
Definition re_rule_line : regex :=
  re true true (Bol :: rule ++ [Star Space; Eol]).
(** [/---+\s*$/] *)
Definition re_rule_end : regex :=
  re false false (rule ++ [Star Space; Eol]).
(** [/\n{3,}/g] *)
Definition re_blank_lines : regex :=
  re true false [Rep (One LF) 3].

(** The cleanup of [content] before it is handed to the Markdown
    library: the chain of [replace] calls, [trim], and the final pass. *)
Definition cleanedContent (content : jsstring) : jsstring :=
  let c := replace re_nl_rule_end [] content in
  let c := replace re_rule_end_g [] c in
  let c := replace re_nl_rule_nl [LF; LF] c in
  let c := replace re_nl_rule_crlf [LF; LF] c in
  let c := replace re_crlf_rule_crlf [CR; LF; CR; LF] c in
  let c := replace re_rule_line [] c in
  let c := replace re_rule_end [] c in
  let c := replace re_blank_lines [LF; LF] c in
  let c := trim c in
  trim (replace re_rule_end [] c).


(** ** The [code] component *)

(** [/language-(\w+)/] *)
Definition re_language : regex :=
  re false false (map Chr (js "language-") ++ [Plus Word]).
(** [/\n$/] *)
Definition re_final_newline : regex :=
  re false false [Chr LF; Eol].

(** [match && match[1]] for [match = /language-(\w+)/.exec(className || '')]:
    the group is the matched text after the nine characters of
    ["language-"]. *)
Definition declared (className : option jsstring) : option jsstring :=
  match exec re_language (or_else className []) with
  | Some (_, matched) => Some (skipn 9 matched)
  | None => None
  end.

(** The language guessed from the text of a block without a tag. *)
Definition autoDetect (codeString : jsstring) : jsstring :=
  let content := toLowerCase codeString in
  if includes content (js "def ") || includes content (js "class ")
     || includes content (js "import ") || includes content (js "@dataclass")
     || includes content (js "raise ") || includes content (js "-> none")
     || includes content (js "// before:") || includes content (js "// after:")
  then js "python"
  else if includes content (js "function ") || includes content (js "const ")
     || includes content (js "let ") || includes content (js "export ")
     || includes content (js "interface ") || includes content (js "type ")
     || includes content (js "// before") || includes content (js "// after")
  then js "javascript"
  else if includes content (js "public ") || includes content (js "private ")
     || includes content (js "class ") && includes content (js "{")
  then js "java"
  else js "text".

Inductive CodeView :=
| CodeBlock (language codeString : jsstring)
| InlineCode (children : jsstring).

Definition code (className : option jsstring) (children : jsstring)
    : CodeView :=
  let match_ := declared className in
  let codeString := replace re_final_newline [] children in
  let isCodeBlock :=
    includes codeString [LF] || (50 <? length codeString)
    || match match_ with Some l => truthy l | None => false end in
  if isCodeBlock then
    let language :=
      match match_ with
      | Some l => if truthy l then l else autoDetect codeString
      | None => autoDetect codeString
      end in
    CodeBlock language codeString
  else InlineCode children.

End MarkdownRenderer.

(* ================================================================== *)
(** * components/CodeQuestion.tsx *)
(* ================================================================== *)

Module CodeQuestion.
Import Api.

Record Props := {
  codeContent : jsstring;
  analysisResult : option AnalysisResult.t
}.

(** The component's [useState] cells. *)
Record State := {
  question : jsstring;
  isLoading : bool;
  answers : list QuestionResponse.t;
  language : jsstring
}.

(** [analysisResult?.language], which is [undefined] without a result. *)
Definition resultLanguage (p : Props) : option jsstring :=
  match analysisResult p with
  | Some r => AnalysisResult.language r
  | None => None
  end.

Definition detectedLanguage (p : Props) : jsstring :=
  or_else (resultLanguage p) (js "Generic").

Definition initial (p : Props) : State :=
  {| question := []; isLoading := false; answers := [];
     language := detectedLanguage p |}.

(** What a handler does, in order: state setters and outside effects. *)
Inductive Call :=
| PreventDefault
| SetQuestion (v : jsstring)
| SetIsLoading (v : bool)
| SetAnswers (v : list QuestionResponse.t)
| SetLanguage (v : jsstring)
| Issue (r : Request)                  (* the request sent by [api.post] *)
| ConsoleError (e : AxiosError)
| Alert (msg : jsstring).

Definition apply (st : State) (c : Call) : State :=
  match c with
  | SetQuestion v =>
      {| question := v; isLoading := isLoading st;
         answers := answers st; language := language st |}
  | SetIsLoading v =>
      {| question := question st; isLoading := v;
         answers := answers st; language := language st |}
  | SetAnswers v =>
      {| question := question st; isLoading := isLoading st;
         answers := v; language := language st |}
  | SetLanguage v =>
      {| question := question st; isLoading := isLoading st;
         answers := answers st; language := v |}
  | PreventDefault | Issue _ | ConsoleError _ | Alert _ => st
  end.

Definition run (st : State) (calls : list Call) : State :=
  fold_left apply calls st.

(** The requests a handler sent. *)
Definition issued (calls : list Call) : list Request :=
  flat_map (fun c => match c with Issue r => [r] | _ => [] end) calls.

(** The alerts a handler raised. *)
Definition alerts (calls : list Call) : list jsstring :=
  flat_map (fun c => match c with Alert a => [a] | _ => [] end) calls.

(** [handleSubmit], run to its end against the service [post]; the values
    of [question], [answers] and [language] are those of the render that
    created the handler. *)
Definition handleSubmit (post : Post QuestionResponse.t) (p : Props)
    (st : State) : list Call :=
  PreventDefault ::
  if negb (truthy (trim (question st)))
     || negb (truthy (trim (codeContent p)))
  then []
  else
    SetIsLoading true ::
    (let (request, result) :=
       askQuestion post (question st) (codeContent p) (Some (language st)) in
     Issue request ::
     match result with
     | inr response =>
         [ SetAnswers (answers st ++ [response]); SetQuestion [] ]
     | inl error =>
         [ ConsoleError error;
           Alert (js "Failed to get answer. Please try again.") ]
     end)
    ++ [ SetIsLoading false ].

(** The [useEffect] on [analysisResult]. *)
Definition languageEffect (p : Props) : list Call :=
  match resultLanguage p with
  | Some l => if truthy l then [ SetLanguage l ] else []
  | None => []
  end.

(** The events the panel reacts to. *)
Inductive Event :=
| ChangeQuestion (value : jsstring)        (* textarea onChange *)
| ChangeLanguage (value : jsstring)        (* select onChange   *)
| AnalysisResultChanged                    (* useEffect         *)
| Submit (post : Post QuestionResponse.t). (* form onSubmit     *)

Definition handle (p : Props) (st : State) (e : Event) : list Call :=
  match e with
  | ChangeQuestion v => [ SetQuestion v ]
  | ChangeLanguage v => [ SetLanguage v ]
  | AnalysisResultChanged => languageEffect p
  | Submit post => handleSubmit post p st
  end.

Definition step (p : Props) (st : State) (e : Event) : State :=
  run st (handle p st e).

Definition steps (p : Props) (st : State) (es : list Event) : State :=
  fold_left (step p) es st.

(** The [question] field of the form a request carries. *)
Definition asked (r : Request) : option FormValue :=
  match find (fun kv => if list_eq_dec N.eq_dec (fst kv) (js "question")
                        then true else false) (formData r) with
  | Some kv => Some (snd kv)
  | None => None
  end.

(** Modelled from the spec: the handler of [POST /question] in the remote
    service is not part of the sources; its response repeats the question
    of the request in the [question] field ("a new entry is appended to
    the conversation log with question equal to the literal input
    string"). *)
Definition echoes (post : Post QuestionResponse.t) : Prop :=
  forall request response,
    post request = inr response ->
    asked request = Some (Text (QuestionResponse.question response)).

End CodeQuestion.

(* ================================================================== *)
(** * components/DocumentationGenerator.tsx *)
(* ================================================================== *)

Module DocumentationGenerator.
Import Api.

Record Props := {
  codeContent : option jsstring;
  analysisResult : option AnalysisResult.t
}.

Record State := {
  isGenerating : bool;
  error : option jsstring;
  documentation : option DocumentationResponse.t;
  uploadedFile : option File
}.

(** The anchor that is clicked for a download. *)
Record Anchor := { href : Blob; download : jsstring }.

Inductive Call :=
| SetIsGenerating (v : bool)
| SetError (v : option jsstring)
| SetDocumentation (v : option DocumentationResponse.t)
| SetUploadedFile (v : option File)
| Issue (r : Request)
| Click (a : Anchor).

Definition apply (st : State) (c : Call) : State :=
  match c with
  | SetIsGenerating v =>
      {| isGenerating := v; error := error st;
         documentation := documentation st; uploadedFile := uploadedFile st |}
  | SetError v =>
      {| isGenerating := isGenerating st; error := v;
         documentation := documentation st; uploadedFile := uploadedFile st |}
  | SetDocumentation v =>
      {| isGenerating := isGenerating st; error := error st;
         documentation := v; uploadedFile := uploadedFile st |}
  | SetUploadedFile v =>
      {| isGenerating := isGenerating st; error := error st;
         documentation := documentation st; uploadedFile := v |}
  | Issue _ | Click _ => st
  end.

Definition run (st : State) (calls : list Call) : State :=
  fold_left apply calls st.

Definition issued (calls : list Call) : list Request :=
  flat_map (fun c => match c with Issue r => [r] | _ => [] end) calls.

Definition failure : jsstring :=
  js "Failed to generate documentation. Please try again.".

(** [generateFromAnalyzedCode], run to its end against the service. *)
Definition generateFromAnalyzedCode (post : Post DocumentationResponse.t)
    (p : Props) : list Call :=
  match codeContent p, analysisResult p with
  | Some content, Some analysis =>
      if negb (truthy content) then []
      else
        [ SetIsGenerating true; SetError None; SetDocumentation None ]
        ++ (let filename :=
              or_else (AnalysisResult.filename analysis) (js "code.py") in
            let blob :=
              {| blobParts := [content]; blobType := js "text/plain" |} in
            let file :=
              {| fileBits := [blob]; name := filename;
                 fileType := js "text/plain" |} in
            let (request, result) := generateDocumentation post file in
            Issue request ::
            match result with
            | inr response =>
                [ SetDocumentation (Some response);
                  SetUploadedFile (Some file) ]
            | inl err => [ SetError (Some (or_else (detail err) failure)) ]
            end)
        ++ [ SetIsGenerating false ]
  | _, _ => []
  end.

Definition slash : N := code "/".
Definition dot : N := code ".".

(** [/\.[^/.]+$/] *)
Definition re_extension : regex :=
  {| atoms := [Chr dot; Plus (NoneOf [slash; dot]); Eol];
     global := false; multiline := false |}.

(** The template literal assigned to [a.download]. *)
Definition downloadName (filename : jsstring) : jsstring :=
  replace re_extension [] filename ++ js "_documentation.md".

Definition downloadDocumentation (st : State) : list Call :=
  match documentation st with
  | None => []
  | Some d =>
      let blob := {| blobParts := [DocumentationResponse.documentation d];
                     blobType := js "text/markdown" |} in
      [ Click {| href := blob;
                 download := downloadName (DocumentationResponse.filename d) |} ]
  end.

(** [onDrop], run to its end against the service. *)
Definition onDrop (post : Post DocumentationResponse.t)
    (acceptedFiles : list File) : list Call :=
  match acceptedFiles with
  | [] => []
  | file :: _ =>
      [ SetUploadedFile (Some file); SetIsGenerating true; SetError None;
        SetDocumentation None ]
      ++ (let (request, result) := generateDocumentation post file in
          Issue request ::
          match result with
          | inr response => [ SetDocumentation (Some response) ]
          | inl err => [ SetError (Some (or_else (detail err) failure)) ]
          end)
      ++ [ SetIsGenerating false ]
  end.

End DocumentationGenerator.

(* ================================================================== *)
(** * components/FileUpload.tsx *)
(* ================================================================== *)

Module FileUpload.
Import Api.

Record State := {
  isUploading : bool;
  error : option jsstring;
  uploadedFile : option File
}.

Inductive Call :=
| SetUploadedFile (v : option File)
| SetIsUploading (v : bool)
| SetError (v : option jsstring)
| Issue (r : Request)
| ReadAsText (file : File) (result : AnalysisResult.t).
    (* reader.readAsText(file); its onload hands [result] and the text
       read to [onAnalysisComplete] *)

Definition apply (st : State) (c : Call) : State :=
  match c with
  | SetUploadedFile v =>
      {| isUploading := isUploading st; error := error st;
         uploadedFile := v |}
  | SetIsUploading v =>
      {| isUploading := v; error := error st;
         uploadedFile := uploadedFile st |}
  | SetError v =>
      {| isUploading := isUploading st; error := v;
         uploadedFile := uploadedFile st |}
  | Issue _ | ReadAsText _ _ => st
  end.

Definition run (st : State) (calls : list Call) : State :=
  fold_left apply calls st.

Definition issued (calls : list Call) : list Request :=
  flat_map (fun c => match c with Issue r => [r] | _ => [] end) calls.

(** The calls of [onAnalysisComplete] a handler leads to: one for each
    file read, with the analysis result and the text of the file. *)
Definition completed (calls : list Call)
    : list (AnalysisResult.t * jsstring) :=
  flat_map (fun c => match c with
                     | ReadAsText file result => [ (result, text file) ]
                     | _ => []
                     end) calls.

Definition failure : jsstring :=
  js "Failed to analyze file. Please try again.".

(** [onDrop], run to its end against the service. *)
Definition onDrop (post : Post AnalysisResult.t) (acceptedFiles : list File)
    : list Call :=
  match acceptedFiles with
  | [] => []
  | file :: _ =>
      [ SetUploadedFile (Some file); SetIsUploading true; SetError None ]
      ++ (let (request, result) := analyzeCode post file in
          Issue request ::
          match result with
          | inr result => [ ReadAsText file result ]
          | inl err => [ SetError (Some (or_else (detail err) failure)) ]
          end)
      ++ [ SetIsUploading false ]
  end.

End FileUpload.

(* ================================================================== *)
(** * App.tsx *)
(* ================================================================== *)

Module App.
Import Api.

Inductive Tab := analyze | question | documentation.

Record State := {
  activeTab : Tab;
  analysisResult : option AnalysisResult.t;     (* useState<any>(null) *)
  codeContent : jsstring
}.

Definition initial : State :=
  {| activeTab := analyze; analysisResult := None; codeContent := [] |}.

(** The [onAnalysisComplete] handed to the upload widget. *)
Definition onAnalysisComplete (st : State)
    (done : AnalysisResult.t * jsstring) : State :=
  {| activeTab := activeTab st;
     analysisResult := Some (fst done);
     codeContent := snd done |}.

(** The state after a drop on the upload widget has run to its end. *)
Definition dropped (post : Post AnalysisResult.t) (files : list File)
    (st : State) : State :=
  fold_left onAnalysisComplete
    (FileUpload.completed (FileUpload.onDrop post files)) st.

(** The props handed to the two panels. *)
Definition questionProps (st : State) : CodeQuestion.Props :=
  {| CodeQuestion.codeContent := codeContent st;
     CodeQuestion.analysisResult := analysisResult st |}.

Definition documentationProps (st : State) : DocumentationGenerator.Props :=
  {| DocumentationGenerator.codeContent := Some (codeContent st);
     DocumentationGenerator.analysisResult := analysisResult st |}.

End App.

(* ================================================================== *)
(** * Vocabulary of the statements *)
(* ================================================================== *)

Module Terms.
Import Api.

(** The complexity score of an analysis result. *)
Definition score (r : AnalysisResult.t) : float :=
  AnalysisResult.complexity_score (AnalysisResult.basic_analysis r).

(** The tokens the language guess looks for, in the order of its
    branches. *)
Definition python_tokens : list jsstring :=
  map js [ "def "; "class "; "import "; "@dataclass"; "raise "; "-> none";
           "// before:"; "// after:" ]%string.
Definition javascript_tokens : list jsstring :=
  map js [ "function "; "const "; "let "; "export "; "interface "; "type ";
           "// before"; "// after" ]%string.
Definition access_tokens : list jsstring :=
  map js [ "public "; "private " ]%string.

(** Whether the text includes one of the tokens. *)
Definition has (content : jsstring) (tokens : list jsstring) : bool :=
  existsb (includes content) tokens.

(** The request [handleSubmit] builds from the rendered values. *)
Definition request_of (p : CodeQuestion.Props) (st : CodeQuestion.State)
    : Request :=
  {| url := js "/question";
     formData := [ (js "question", Text (CodeQuestion.question st));
                   (js "code_content", Text (CodeQuestion.codeContent p));
                   (js "language", Text (CodeQuestion.language st)) ] |}.

(** Whether the guard of [handleSubmit] lets the submission through. *)
Definition passes (p : CodeQuestion.Props) (st : CodeQuestion.State) : bool :=
  truthy (trim (CodeQuestion.question st))
  && truthy (trim (CodeQuestion.codeContent p)).

(** The request [generateFromAnalyzedCode] sends for a file. *)
Definition documentation_request (file : File) : Request :=
  {| url := js "/documentation"; formData := [ (js "file", Upload file) ] |}.

(** The class [[^/.]]. *)
Definition plain : cls :=
  NoneOf [DocumentationGenerator.slash; DocumentationGenerator.dot].

(** The end of the extension pattern after the dot and the class: [$]. *)
Definition to_end : option N -> jsstring -> option nat :=
  match_here false [Eol].

(** The text has a final extension: a last dot followed by one or more
    characters, none of them a dot or a slash. *)
Definition has_extension (filename base ext : jsstring) : Prop :=
  filename = base ++ DocumentationGenerator.dot :: ext /\ ext <> [] /\
  ~ In DocumentationGenerator.dot ext /\
  ~ In DocumentationGenerator.slash ext.

End Terms.

(* ================================================================== *)
(** * Sample values *)
(* ================================================================== *)

Module Samples.
Import Api.

(** An analysis result in the shape of the one in the API tests, with the
    two scores left open. *)
Definition scored (complexity : float) (quality : option float)
    : AnalysisResult.t :=
  {| AnalysisResult.filename := Some (js "test.py");
     AnalysisResult.language := Some (js "Python");
     AnalysisResult.basic_analysis :=
       {| AnalysisResult.complexity_score := complexity |};
     AnalysisResult.ai_enhancement :=
       {| AnalysisResult.code_quality_score := quality |} |}.

(** The same result without a file name. *)
Definition unnamed : AnalysisResult.t :=
  {| AnalysisResult.filename := None;
     AnalysisResult.language := Some (js "Python");
     AnalysisResult.basic_analysis :=
       {| AnalysisResult.complexity_score := 5 |};
     AnalysisResult.ai_enhancement :=
       {| AnalysisResult.code_quality_score := Some 8%float |} |}.

(** Four rules separated by blanks, and a rule behind a leading blank. *)
Definition four_rules : jsstring := js "--- --- --- ---".
Definition indented_rule : jsstring :=
  js " ---" ++ [MarkdownRenderer.LF] ++ js "a".

(** A Java field declaration, and a Java class declaration. *)
Definition java_field : jsstring :=
  js "private int count;" ++ [MarkdownRenderer.LF] ++ js "public int total;".
Definition java_class : jsstring :=
  js "public class Foo {" ++ [MarkdownRenderer.LF] ++ js "}".

(** The question panel after an analysis of a Python file, with a
    question typed in and one earlier entry in the log. *)
Definition source : jsstring := js "def add(a, b): return a + b".

Definition panel : CodeQuestion.Props :=
  {| CodeQuestion.codeContent := source;
     CodeQuestion.analysisResult := Some (scored 5 (Some 8%float)) |}.

Definition earlier : QuestionResponse.t :=
  {| QuestionResponse.answer := js "It adds two numbers.";
     QuestionResponse.question := js "What does add do?";
     QuestionResponse.language := js "Python" |}.

Definition asking (text : jsstring) : CodeQuestion.State :=
  {| CodeQuestion.question := text; CodeQuestion.isLoading := false;
     CodeQuestion.answers := [earlier];
     CodeQuestion.language := js "Python" |}.

Definition what : jsstring := js "What does Calculator.add do?".

(** A service that answers every question, repeating it in the response,
    and a service that rejects every request. *)
Definition answering (answer : jsstring) : Post QuestionResponse.t :=
  fun request =>
    match CodeQuestion.asked request with
    | Some (Text q) =>
        inr {| QuestionResponse.answer := answer;
               QuestionResponse.question := q;
               QuestionResponse.language := js "Python" |}
    | _ => inl {| detail := None |}
    end.

Definition rejecting (A : Type) : Post A :=
  fun _ => inl {| detail := Some (js "Service unavailable") |}.

(** The documentation panel after the same analysis. *)
Definition analyzed (r : AnalysisResult.t) : DocumentationGenerator.Props :=
  {| DocumentationGenerator.codeContent := Some source;
     DocumentationGenerator.analysisResult := Some r |}.

Definition documented (filename : jsstring) : DocumentationGenerator.State :=
  {| DocumentationGenerator.isGenerating := false;
     DocumentationGenerator.error := None;
     DocumentationGenerator.documentation :=
       Some {| DocumentationResponse.filename := filename;
               DocumentationResponse.language := js "Python";
               DocumentationResponse.documentation := js "# Overview" |};
     DocumentationGenerator.uploadedFile := None |}.

End Samples.

(* ================================================================== *)
(** * Runs of a character, and lengths of matches *)
(* ================================================================== *)

Module Runs.

(** The number of leading occurrences of [c]. *)
Fixpoint lead (c : N) (s : jsstring) : nat :=
  match s with
  | x :: s' => if (x =? c)%N then S (lead c s') else 0
  | [] => 0
  end.

(** Every run of [c] in the text is shorter than [n]. *)
Fixpoint below (c : N) (n : nat) (s : jsstring) : Prop :=
  match s with
  | [] => True
  | _ :: s' => lead c s < n /\ below c n s'
  end.

(** The text has a run of [n] or more [c]. *)
Definition has_run (c : N) (n : nat) (s : jsstring) : Prop :=
  exists a t, s = a ++ t /\ n <= lead c t.

(** The least number of characters a pattern matches. *)
Definition least (a : atom) : nat :=
  match a with
  | Chr _ => 1
  | Rep _ min => min
  | Bol | Eol => 0
  end.

Fixpoint min_len (r : list atom) : nat :=
  match r with
  | [] => 0
  | a :: r' => least a + min_len r'
  end.

(** The pattern matches at no position of the text. *)
Fixpoint quiet (m : bool) (r : list atom) (s : jsstring) : Prop :=
  (forall prev, match_here m r prev s = None) /\
  match s with
  | [] => True
  | _ :: s' => quiet m r s'
  end.

(** The two steps of the renderer that are not about rules: the collapse
    of blank lines in the cleanup, and the removal of a final newline from
    the text of a code element. *)
Definition collapse (s : jsstring) : jsstring :=
  replace MarkdownRenderer.re_blank_lines
    [MarkdownRenderer.LF; MarkdownRenderer.LF] s.

Definition strip (children : jsstring) : jsstring :=
  replace MarkdownRenderer.re_final_newline [] children.

(** The text neither starts nor ends with white space. *)
Definition trimmed (s : jsstring) : Prop :=
  trimStart s = s /\ trimEnd s = s.

(** The text is empty or starts with a character that is no white space. *)
Definition clean_head (s : jsstring) : Prop :=
  match s with
  | [] => True
  | x :: _ => isWhiteSpace x = false
  end.

(** The tail of a content that ends in a rule on a line of its own: a
    newline, three or more hyphens, and white space. *)
Definition rule_tail (k : nat) (ws : jsstring) : jsstring :=
  MarkdownRenderer.LF :: repeat MarkdownRenderer.dash (3 + k) ++ ws.

End Runs.

(* ================================================================== *)
(** * The requests and states the panels exchange *)
(* ================================================================== *)

Module Wiring.
Import Api.

(** The number of form submissions among the events. *)
Definition submits (es : list CodeQuestion.Event) : nat :=
  length (filter (fun e => match e with
                           | CodeQuestion.Submit _ => true
                           | _ => false
                           end) es).

(** The file [generateFromAnalyzedCode] makes of the analyzed text. *)
Definition analyzed_file (content : jsstring) (analysis : AnalysisResult.t)
    : File :=
  {| fileBits := [ {| blobParts := [content];
                      blobType := js "text/plain" |} ];
     name := or_else (AnalysisResult.filename analysis) (js "code.py");
     fileType := js "text/plain" |}.

(** The request [analyzeCode] sends for a file. *)
Definition analyze_request (file : File) : Request :=
  {| url := js "/analyze"; formData := [ (js "file", Upload file) ] |}.

(** The blob behind a download of a documentation. *)
Definition markdown_blob (d : DocumentationResponse.t) : Blob :=
  {| blobParts := [DocumentationResponse.documentation d];
     blobType := js "text/markdown" |}.

(** The [code_content] field of the form a request carries. *)
Definition code_sent (r : Request) : option FormValue :=
  match find (fun kv => if list_eq_dec N.eq_dec (fst kv) (js "code_content")
                        then true else false) (formData r) with
  | Some kv => Some (snd kv)
  | None => None
  end.

(** The [language] field of the form a request carries. *)
Definition language_sent (r : Request) : option FormValue :=
  match find (fun kv => if list_eq_dec N.eq_dec (fst kv) (js "language")
                        then true else false) (formData r) with
  | Some kv => Some (snd kv)
  | None => None
  end.

(** The documentation panel at rest after a generation: not generating,
    and showing exactly one of a documentation and an error message. *)
Definition settled (st : DocumentationGenerator.State) : Prop :=
  DocumentationGenerator.isGenerating st = false /\
  ((exists response,
       DocumentationGenerator.documentation st = Some response /\
       DocumentationGenerator.error st = None) \/
   (exists message,
       DocumentationGenerator.documentation st = None /\
       DocumentationGenerator.error st = Some message)).

End Wiring.

(* ================================================================== *)
(** * More sample values *)
(* ================================================================== *)

Module Scenarios.
Import Api Samples.

(** A text with blank lines and white space around it, and no rule. *)
Definition spaced : jsstring :=
  js "  Intro" ++ [MarkdownRenderer.LF; MarkdownRenderer.LF;
                   MarkdownRenderer.LF; MarkdownRenderer.LF]
  ++ js "Body " ++ [MarkdownRenderer.LF].

(** A text of two paragraphs. *)
Definition two_paragraphs : jsstring :=
  js "Intro" ++ [MarkdownRenderer.LF; MarkdownRenderer.LF] ++ js "Body".

(** The response of the answering service to the sample question. *)
Definition reply : QuestionResponse.t :=
  {| QuestionResponse.answer := js "It adds.";
     QuestionResponse.question := what;
     QuestionResponse.language := js "Python" |}.

(** The request of the sample question. *)
Definition sample_request : Request :=
  {| url := js "/question";
     formData := [ (js "question", Text what);
                   (js "code_content", Text source);
                   (js "language", Text (js "Python")) ] |}.

(** A file picked by the user, an empty file, and a service that analyses
    every file with the same result. *)
Definition picked : File :=
  {| fileBits := [ {| blobParts := [source]; blobType := js "text/x-python" |} ];
     name := js "test.py"; fileType := js "text/x-python" |}.

Definition blank_file : File :=
  {| fileBits := []; name := js "empty.py"; fileType := js "text/x-python" |}.

Definition analysing (r : AnalysisResult.t) : Post AnalysisResult.t :=
  fun _ => inr r.

Definition idle_upload : FileUpload.State :=
  {| FileUpload.isUploading := false; FileUpload.error := None;
     FileUpload.uploadedFile := None |}.

End Scenarios.

(* ================================================================== *)
(** * Order facts on binary64 numbers *)
(* ================================================================== *)

Unset Implicit Arguments.

Module FloatFacts.

Lemma SFcompare_antisym (x y : spec_float) (c : comparison) :
  SFcompare x y = Some c -> SFcompare y x = Some (CompOpp c).
Proof.
  destruct x as [sx | sx | | sx mx ex], y as [sy | sy | | sy my ey];
    simpl; try discriminate;
    try (destruct sx); try (destruct sy);
    intros H; inversion H; subst; try reflexivity;
    rewrite (Z.compare_antisym ex ey);
    destruct (ex ?= ey)%Z; simpl; try reflexivity;
    rewrite ?CompOpp_involutive, ?Pos.compare_cont_antisym; reflexivity.
Qed.

(** [a <= s] excludes [s < a]. *)
Lemma leb_not_ltb (a s : float) :
  (a <=? s)%float = true -> (s <? a)%float = false.
Proof.
  rewrite leb_spec, ltb_spec. unfold SFleb, SFltb.
  destruct (SFcompare (Prim2SF a) (Prim2SF s)) as [c |] eqn:E;
    [ | discriminate ].
  rewrite (@SFcompare_antisym _ _ _ E).
  destruct c; simpl; congruence.
Qed.

(** [s < a] excludes [a <= s]. *)
Lemma ltb_not_leb (a s : float) :
  (s <? a)%float = true -> (a <=? s)%float = false.
Proof.
  intros H. destruct (a <=? s)%float eqn:E; [ | reflexivity ].
  rewrite (@leb_not_ltb a s E) in H. discriminate.
Qed.

(** A number that is not below [a] and compares with it is at least [a]. *)
Lemma not_ltb_leb (a s : float) :
  is_nan s = false -> is_nan a = false ->
  (s <? a)%float = false -> (a <=? s)%float = true.
Proof.
  unfold is_nan. rewrite !FloatAxioms.eqb_spec, leb_spec, ltb_spec.
  unfold SFeqb, SFleb, SFltb.
  destruct (SFcompare (Prim2SF s) (Prim2SF a)) as [c |] eqn:E.
  - rewrite (@SFcompare_antisym _ _ _ E). destruct c; simpl; congruence.
  - destruct (Prim2SF s) as [? | ? | | ? ? ?], (Prim2SF a) as [? | ? | | ? ? ?];
      simpl in *; try discriminate; intros; discriminate.
Qed.

End FloatFacts.

Module FloatBounds.
Import FloatFacts.

Lemma spec_three : Prim2SF 3 = S754_finite false 6755399441055744 (-51).
Proof. vm_compute. reflexivity. Qed.

Lemma spec_six : Prim2SF 6 = S754_finite false 6755399441055744 (-50).
Proof. vm_compute. reflexivity. Qed.

Lemma spec_eight : Prim2SF 8 = S754_finite false 4503599627370496 (-49).
Proof. vm_compute. reflexivity. Qed.

(** Comparisons of an arbitrary number with two of the thresholds. *)
Ltac thresholds s :=
  rewrite ?leb_spec, ?ltb_spec in *;
  rewrite ?spec_three, ?spec_six, ?spec_eight in *;
  unfold SFleb, SFltb in *;
  destruct (Prim2SF s) as [sg | sg | | sg m e]; cbn [SFcompare] in *;
  try destruct sg; try congruence;
  repeat match goal with
         | H : context [(?a ?= ?b)%Z] |- _ => destruct (Z.compare_spec a b)
         | |- context [(?a ?= ?b)%Z] => destruct (Z.compare_spec a b)
         end;
  try congruence; try lia.

(** [6 <= s] excludes [s < 3]. *)
Lemma six_le_not_lt_three (s : float) :
  (6 <=? s)%float = true -> (s <? 3)%float = false.
Proof. intros H. thresholds s. Qed.

(** [8 <= s] excludes [s < 6]. *)
Lemma eight_le_not_lt_six (s : float) :
  (8 <=? s)%float = true -> (s <? 6)%float = false.
Proof. intros H. thresholds s. Qed.

End FloatBounds.

(* ================================================================== *)
(** * Properties of the analysis display *)
(* ================================================================== *)

Module CodeAnalysisFacts.
Import Api CodeAnalysis Terms Samples FloatFacts FloatBounds.

(** C1, as the code has it: the complexity color follows the table
    "below 3 green, below 6 yellow, else red" for every analysis
    result; a score from 3 up to but excluding 6 is yellow and a score
    of 6 or more is red.  At the boundaries, 3 is yellow and 6 is red. *)
Theorem complexity_color_thresholds (r : AnalysisResult.t) :
  ((score r <? 3)%float = true -> complexityClass r = green) /\
  ((3 <=? score r)%float = true -> (score r <? 6)%float = true ->
     complexityClass r = yellow) /\
  ((6 <=? score r)%float = true -> complexityClass r = red) /\
  (score r = 3%float -> complexityClass r = yellow) /\
  (score r = 6%float -> complexityClass r = red).
Proof.
  unfold complexityClass, getComplexityColor. fold (score r).
  split; [ | split; [ | split; [ | split ] ] ].
  - intros ->. reflexivity.
  - intros H3 H6. rewrite (@leb_not_ltb _ _ H3), H6. reflexivity.
  - intros H6.
    rewrite (six_le_not_lt_three _ H6), (@leb_not_ltb _ _ H6). reflexivity.
  - intros ->. reflexivity.
  - intros ->. reflexivity.
Qed.

Lemma complexity_color_thresholds_witness :
  complexityClass (scored 3 (Some 8%float)) = yellow /\
  complexityClass (scored 6 (Some 8%float)) = red /\
  complexityClass (scored 2.5 None) = green /\
  complexityClass (scored 7 None) = red.
Proof.
  split; [ | split; [ | split ] ].
  - apply (complexity_color_thresholds (scored 3 (Some 8%float))).
    reflexivity.
  - apply (complexity_color_thresholds (scored 6 (Some 8%float))).
    reflexivity.
  - apply (complexity_color_thresholds (scored 2.5 None)). reflexivity.
  - apply (proj1 (proj2 (proj2 (complexity_color_thresholds (scored 7 None))))).
    reflexivity.
Defined.

(** C1, as stated, fails at 6: the complexity color of a result whose
    score is 6 is not the yellow class. *)
Lemma complexity_six_is_not_yellow :
  complexityClass (scored 6 (Some 8%float)) <> yellow.
Proof. vm_compute. discriminate. Qed.

(** Every score that is a number falls in exactly one band of the table. *)
Lemma complexity_color_bands (r : AnalysisResult.t) :
  is_nan (score r) = false ->
  (complexityClass r = green /\ (score r <? 3)%float = true) \/
  (complexityClass r = yellow /\ (3 <=? score r)%float = true
     /\ (score r <? 6)%float = true) \/
  (complexityClass r = red /\ (6 <=? score r)%float = true).
Proof.
  intros N. unfold complexityClass, getComplexityColor. fold (score r).
  destruct (score r <? 3)%float eqn:H3; [ left; auto | ].
  destruct (score r <? 6)%float eqn:H6; right; [ left | right ].
  - repeat split. apply not_ltb_leb; auto.
  - split; [ reflexivity | ]. apply not_ltb_leb; auto.
Qed.

(** The neutral class is none of the three threshold classes. *)
Lemma gray_is_no_threshold_color :
  green <> gray /\ yellow <> gray /\ red <> gray.
Proof. repeat split; vm_compute; discriminate. Qed.

(** The quality color away from the falsy scores: the table "at least 8
    green, at least 6 yellow, else red". *)
Lemma quality_color_thresholds (x : float) :
  falsy (Some x) = false ->
  ((8 <=? x)%float = true -> getQualityColor (Some x) = green) /\
  ((6 <=? x)%float = true -> (x <? 8)%float = true ->
     getQualityColor (Some x) = yellow) /\
  ((x <? 6)%float = true -> getQualityColor (Some x) = red).
Proof.
  intros F. unfold getQualityColor. rewrite F. simpl toNumber.
  split; [ | split ].
  - intros ->. reflexivity.
  - intros H6 H8. rewrite (@ltb_not_leb _ _ H8), H6. reflexivity.
  - intros H6.
    rewrite (@ltb_not_leb _ _ H6).
    destruct (8 <=? x)%float eqn:H8; [ | reflexivity ].
    rewrite (eight_le_not_lt_six _ H8) in H6. discriminate.
Qed.

(** The gray class is produced exactly for the falsy scores. *)
Lemma quality_gray_iff_falsy (score : option float) :
  getQualityColor score = gray <-> falsy score = true.
Proof.
  unfold getQualityColor.
  destruct (falsy score); [ tauto | ].
  destruct (8 <=? toNumber score)%float;
    [ | destruct (6 <=? toNumber score)%float ];
    (split; [ intros H; vm_compute in H | ]; discriminate).
Qed.

(** C2 at the score 0: the code returns the gray class, both from
    [getQualityColor] and in the rendered paragraph, although the score
    is present. *)
Theorem quality_color_of_zero :
  getQualityColor (Some 0%float) = gray /\
  qualityClass (scored 5 (Some 0%float)) = Some gray /\
  getQualityColor (Some 0%float) <> red.
Proof. vm_compute. repeat split. discriminate. Qed.

End CodeAnalysisFacts.

(* ================================================================== *)
(** * Properties of the Markdown renderer *)
(* ================================================================== *)

Module MarkdownRendererFacts.
Import MarkdownRenderer Terms Samples.

(** C3 on the content ["--- --- --- ---"]: one cleanup leaves the rule
    ["---"], a second cleanup removes it, so the cleanup applied twice
    differs from the cleanup applied once.  The same happens for a rule
    behind a leading blank, which the trim turns into a rule line. *)
Theorem cleanedContent_twice_differs :
  cleanedContent four_rules = js "---" /\
  cleanedContent (cleanedContent four_rules) = [] /\
  cleanedContent (cleanedContent four_rules) <> cleanedContent four_rules /\
  cleanedContent indented_rule = js "---" ++ [LF] ++ js "a" /\
  cleanedContent (cleanedContent indented_rule) = js "a".
Proof. vm_compute. repeat split. discriminate. Qed.

(** The guess is a priority chain over the three token lists. *)
Lemma autoDetect_chain (codeString : jsstring) :
  let content := toLowerCase codeString in
  autoDetect codeString =
    if has content python_tokens then js "python"
    else if has content javascript_tokens then js "javascript"
    else if has content access_tokens then js "java"
    else js "text".
Proof.
  unfold autoDetect, has, python_tokens, javascript_tokens, access_tokens.
  cbv zeta. cbn [existsb map].
  rewrite !orb_false_r, !orb_assoc.
  destruct (includes (toLowerCase codeString) (js "def ")),
           (includes (toLowerCase codeString) (js "class "));
    cbn [orb andb]; rewrite ?orb_false_r; reflexivity.
Qed.

(** A block without a language tag is labelled by the guess. *)
Lemma code_without_tag (className : option jsstring)
    (children language codeString : jsstring) :
  declared className = None ->
  code className children = CodeBlock language codeString ->
  language = autoDetect codeString.
Proof.
  unfold code. intros ->.
  destruct (_ || _ || false); [ | discriminate ].
  intros H. inversion H. reflexivity.
Qed.

(** C9, as the code has it: for a code block without a declared language
    tag the guess is made on the lowercased text, in this order: one of the
    Python tokens gives Python; otherwise one of the JavaScript tokens
    gives JavaScript; otherwise "public " or "private " gives Java;
    a text with none of these tokens is plain text. *)
Theorem autoDetect_priority (className : option jsstring)
    (children language codeString : jsstring) :
  declared className = None ->
  code className children = CodeBlock language codeString ->
  language =
    let content := toLowerCase codeString in
    if has content python_tokens then js "python"
    else if has content javascript_tokens then js "javascript"
    else if has content access_tokens then js "java"
    else js "text".
Proof.
  intros D C.
  rewrite (code_without_tag _ _ _ _ D C). apply autoDetect_chain.
Qed.

Lemma autoDetect_priority_witness :
  js "java" =
    let content := toLowerCase java_field in
    if has content python_tokens then js "python"
    else if has content javascript_tokens then js "javascript"
    else if has content access_tokens then js "java"
    else js "text".
Proof.
  exact (autoDetect_priority None java_field (js "java") java_field
           eq_refl eq_refl).
Defined.

(** C9, as stated, fails on a snippet with "public ", "class " and "{":
    the block is labelled Python, not Java. *)
Lemma public_class_is_not_java :
  code None java_class = CodeBlock (js "python") java_class /\
  code None java_class <> CodeBlock (js "java") java_class.
Proof. vm_compute. split; [ reflexivity | discriminate ]. Qed.

End MarkdownRendererFacts.

(* ================================================================== *)
(** * Properties of the question panel *)
(* ================================================================== *)

Module CodeQuestionFacts.
Import Api CodeQuestion Terms Samples.

Lemma trimStart_blank (s : jsstring) :
  forallb isWhiteSpace s = true -> trimStart s = [].
Proof.
  induction s as [ | c s IH ]; simpl; [ reflexivity | ].
  intros H. apply andb_true_iff in H as [Hc Hs].
  rewrite Hc. exact (IH Hs).
Qed.

(** A string of white space only is trimmed to the empty string. *)
Lemma trim_blank (s : jsstring) :
  forallb isWhiteSpace s = true -> trim s = [].
Proof.
  intros H. unfold trim, trimEnd. rewrite (trimStart_blank s H). reflexivity.
Qed.

Lemma handleSubmit_blocked post p st :
  passes p st = false -> handleSubmit post p st = [ PreventDefault ].
Proof.
  unfold passes, handleSubmit. intros H.
  destruct (truthy (trim (question st))), (truthy (trim (codeContent p)));
    try discriminate; reflexivity.
Qed.

Lemma handleSubmit_sent post p st :
  passes p st = true ->
  handleSubmit post p st =
    PreventDefault :: SetIsLoading true :: Issue (request_of p st) ::
    match post (request_of p st) with
    | inr response =>
        [ SetAnswers (answers st ++ [response]); SetQuestion [] ]
    | inl error =>
        [ ConsoleError error;
          Alert (js "Failed to get answer. Please try again.") ]
    end ++ [ SetIsLoading false ].
Proof.
  unfold passes, handleSubmit. intros H.
  apply andb_true_iff in H as [-> ->]. reflexivity.
Qed.

(** A submission that sent a request passed the guard, and the request
    is the one built from the rendered values. *)
Lemma issued_inv post p st request :
  issued (handleSubmit post p st) = [ request ] ->
  passes p st = true /\ request = request_of p st.
Proof.
  destruct (passes p st) eqn:G.
  - rewrite (handleSubmit_sent post p st G).
    destruct (post (request_of p st)); simpl; intros H; inversion H; auto.
  - rewrite (handleSubmit_blocked post p st G). discriminate.
Qed.

(** Every event keeps the entries of the log, in place. *)
Lemma step_extends p st e :
  exists tail, answers (step p st e) = answers st ++ tail.
Proof.
  destruct e as [ v | v | | post ]; unfold step, handle.
  - exists []. rewrite app_nil_r. reflexivity.
  - exists []. rewrite app_nil_r. reflexivity.
  - exists []. rewrite app_nil_r. unfold languageEffect.
    destruct (resultLanguage p) as [ l | ]; [ destruct (truthy l) | ];
      reflexivity.
  - destruct (passes p st) eqn:G.
    + rewrite (handleSubmit_sent post p st G).
      destruct (post (request_of p st)) as [ err | response ].
      * exists []. rewrite app_nil_r. reflexivity.
      * exists [response]. reflexivity.
    + rewrite (handleSubmit_blocked post p st G).
      exists []. rewrite app_nil_r. reflexivity.
Qed.

Lemma steps_extends p es : forall st,
  exists tail, answers (steps p st es) = answers st ++ tail.
Proof.
  induction es as [ | e es IH ]; intros st.
  - exists []. rewrite app_nil_r. reflexivity.
  - destruct (step_extends p st e) as [t1 H1].
    destruct (IH (step p st e)) as [t2 H2].
    exists (t1 ++ t2). unfold steps in *. simpl.
    rewrite H2, H1, app_assoc. reflexivity.
Qed.

(** C4: a submission whose question is empty or white space only, or whose
    code content is empty (or white space only), sends no request and
    leaves the whole state of the panel, the log included, as it was. *)
Theorem blank_submit_is_noop post p st :
  forallb isWhiteSpace (question st) = true \/
  forallb isWhiteSpace (codeContent p) = true ->
  issued (handleSubmit post p st) = [] /\
  step p st (Submit post) = st /\
  answers (step p st (Submit post)) = answers st.
Proof.
  intros H.
  assert (G : passes p st = false).
  { unfold passes. destruct H as [H | H]; rewrite (trim_blank _ H); simpl;
      [ reflexivity | apply andb_false_r ]. }
  unfold step, handle. rewrite (handleSubmit_blocked post p st G).
  repeat split.
Qed.

(** C5: when the request of a submission is rejected, the log and the
    input text are what they were, and one alert is raised. *)
Theorem failed_question_keeps_log post p st request error :
  issued (handleSubmit post p st) = [ request ] ->
  post request = inl error ->
  answers (step p st (Submit post)) = answers st /\
  question (step p st (Submit post)) = question st /\
  alerts (handleSubmit post p st) =
    [ js "Failed to get answer. Please try again." ].
Proof.
  intros I F. destruct (issued_inv post p st request I) as [G ->].
  unfold step, handle. rewrite (handleSubmit_sent post p st G), F.
  repeat split.
Qed.

(** C6: a submission whose request is answered appends the response, and
    nothing else, at the end of the log; with a service that repeats the
    question, the question of the new entry is the submitted text; and no
    sequence of events of the panel removes or changes an entry of the
    log. *)
Theorem successful_submit_appends post p st request response :
  echoes post ->
  issued (handleSubmit post p st) = [ request ] ->
  post request = inr response ->
  answers (step p st (Submit post)) = answers st ++ [ response ] /\
  QuestionResponse.question response = question st /\
  (forall es, exists tail, answers (steps p st es) = answers st ++ tail).
Proof.
  intros E I R. destruct (issued_inv post p st request I) as [G ->].
  split; [ | split ].
  - unfold step, handle. rewrite (handleSubmit_sent post p st G), R.
    reflexivity.
  - specialize (E _ _ R). unfold asked, request_of in E. simpl in E.
    inversion E. reflexivity.
  - intros es. apply steps_extends.
Qed.

Lemma answering_echoes (answer : jsstring) : echoes (answering answer).
Proof.
  intros request response. unfold answering.
  destruct (asked request) as [ [ q | f ] | ]; intros H; inversion H.
  reflexivity.
Qed.

Lemma blank_submit_is_noop_witness :
  issued (handleSubmit (answering (js "Yes.")) panel (asking (js "   "))) = []
  /\ step panel (asking (js "   ")) (Submit (answering (js "Yes.")))
     = asking (js "   ")
  /\ answers (step panel (asking (js "   ")) (Submit (answering (js "Yes."))))
     = [ earlier ].
Proof.
  apply (blank_submit_is_noop (answering (js "Yes.")) panel (asking (js "   "))).
  left. reflexivity.
Defined.

Lemma failed_question_keeps_log_witness :
  answers (step panel (asking what) (Submit (rejecting _))) = [ earlier ] /\
  question (step panel (asking what) (Submit (rejecting _))) = what /\
  alerts (handleSubmit (rejecting _) panel (asking what)) =
    [ js "Failed to get answer. Please try again." ].
Proof.
  apply (failed_question_keeps_log (rejecting _) panel (asking what)
           (request_of panel (asking what))
           {| detail := Some (js "Service unavailable") |});
    reflexivity.
Defined.

Lemma successful_submit_appends_witness :
  answers (step panel (asking what) (Submit (answering (js "It adds."))))
  = [ earlier;
      {| QuestionResponse.answer := js "It adds.";
         QuestionResponse.question := what;
         QuestionResponse.language := js "Python" |} ] /\
  what = what /\
  (forall es, exists tail,
      answers (steps panel (asking what) es) = [ earlier ] ++ tail).
Proof.
  apply (successful_submit_appends (answering (js "It adds.")) panel
           (asking what) (request_of panel (asking what))
           {| QuestionResponse.answer := js "It adds.";
              QuestionResponse.question := what;
              QuestionResponse.language := js "Python" |}).
  - apply answering_echoes.
  - reflexivity.
  - reflexivity.
Defined.

End CodeQuestionFacts.

(* ================================================================== *)
(** * Properties of the documentation panel *)
(* ================================================================== *)

Module DocumentationGeneratorFacts.
Import Api DocumentationGenerator Terms Samples.

Lemma plain_spec (c : N) :
  mem plain c = true <-> c <> dot /\ c <> slash.
Proof.
  unfold plain, mem. cbn [existsb]. rewrite orb_false_r, negb_true_iff.
  rewrite orb_false_iff, !N.eqb_neq. tauto.
Qed.

Lemma plain_all (ext : jsstring) :
  forallb (mem plain) ext = true <-> ~ In dot ext /\ ~ In slash ext.
Proof.
  induction ext as [ | c ext IH ]; cbn [forallb In].
  - tauto.
  - rewrite andb_true_iff, IH, plain_spec. intuition congruence.
Qed.

(** The class followed by [$] matches a text made of the class only, up
    to its end. *)
Lemma many_to_end (t : jsstring) : forall min prev,
  forallb (mem plain) t = true -> min <= length t ->
  many plain to_end min prev t = Some (length t).
Proof.
  induction t as [ | x t IH ]; intros min prev A L;
    cbn [many forallb length] in *.
  - assert (min = 0) as -> by lia. reflexivity.
  - apply andb_true_iff in A as [-> A].
    rewrite (IH (pred min) (Some x) A) by lia. reflexivity.
Qed.

(** It matches nothing else. *)
Lemma many_sound (t : jsstring) : forall min prev n,
  many plain to_end min prev t = Some n ->
  n = length t /\ forallb (mem plain) t = true /\ min <= length t.
Proof.
  induction t as [ | x t IH ]; intros min prev n;
    cbn [many forallb length].
  - destruct min; simpl; [ | discriminate ].
    intros H. inversion H. auto.
  - destruct (mem plain x).
    + destruct (many plain to_end (pred min) (Some x) t) as [ k | ] eqn:E.
      * intros H. inversion H. subst.
        destruct (IH _ _ _ E) as (-> & A & L).
        split; [ reflexivity | split; [ exact A | lia ] ].
      * destruct min; simpl; discriminate.
    + destruct min; simpl; discriminate.
Qed.

(** A text with a character outside the class is not matched. *)
Lemma many_blocked (t : jsstring) (c : N) : forall min prev,
  In c t -> mem plain c = false ->
  many plain to_end min prev t = None.
Proof.
  intros min prev I B.
  destruct (many plain to_end min prev t) as [ n | ] eqn:E;
    [ | reflexivity ].
  destruct (many_sound _ _ _ _ E) as (_ & A & _).
  rewrite forallb_forall in A. rewrite (A c I) in B. discriminate.
Qed.

Lemma match_here_extension prev (s : jsstring) :
  match_here false (atoms re_extension) prev s =
    match s with
    | x :: s' =>
        if (x =? dot)%N
        then option_map S (many plain to_end 1 (Some x) s')
        else None
    | [] => None
    end.
Proof. reflexivity. Qed.

(** At a dot followed by an extension the pattern matches to the end. *)
Lemma match_at_final_dot prev (ext : jsstring) :
  ext <> [] -> forallb (mem plain) ext = true ->
  match_here false (atoms re_extension) prev (dot :: ext)
  = Some (S (length ext)).
Proof.
  intros NE A. rewrite match_here_extension, N.eqb_refl.
  rewrite (many_to_end ext 1 (Some dot) A); [ reflexivity | ].
  destruct ext; [ congruence | simpl; lia ].
Qed.

(** A match starts at a dot and runs over an extension to the end. *)
Lemma match_here_sound prev (s : jsstring) n :
  match_here false (atoms re_extension) prev s = Some n ->
  exists ext, s = dot :: ext /\ ext <> [] /\ forallb (mem plain) ext = true.
Proof.
  rewrite match_here_extension.
  destruct s as [ | x s ]; [ discriminate | ].
  destruct (N.eqb_spec x dot) as [ -> | ]; [ | discriminate ].
  destruct (many plain to_end 1 (Some dot) s) as [ k | ] eqn:E;
    [ | discriminate ].
  intros _. destruct (many_sound _ _ _ _ E) as (_ & A & L).
  exists s. repeat split; auto. intros ->. simpl in L. lia.
Qed.

(** No match starts before the last dot. *)
Lemma no_match_before prev (c : N) (rest ext : jsstring) :
  match_here false (atoms re_extension) prev (c :: rest ++ dot :: ext) = None.
Proof.
  rewrite match_here_extension.
  destruct (c =? dot)%N; [ | reflexivity ].
  rewrite (many_blocked (rest ++ dot :: ext) dot); [ reflexivity | | ].
  - apply in_or_app. right. left. reflexivity.
  - reflexivity.
Qed.

(** The leftmost match of the pattern is the final extension. *)
Lemma search_extension (base ext : jsstring) : forall prev,
  ext <> [] -> forallb (mem plain) ext = true ->
  search false (atoms re_extension) prev (base ++ dot :: ext)
  = Some (length base, S (length ext)).
Proof.
  induction base as [ | c base IH ]; intros prev NE A.
  - cbn [app search length]. rewrite (match_at_final_dot prev ext NE A).
    reflexivity.
  - cbn [app search length]. rewrite no_match_before.
    rewrite (IH (Some c) NE A). reflexivity.
Qed.

(** Any match the search finds is a final extension. *)
Lemma search_sound (s : jsstring) : forall prev i n,
  search false (atoms re_extension) prev s = Some (i, n) ->
  exists base ext,
    s = base ++ dot :: ext /\ ext <> [] /\ forallb (mem plain) ext = true.
Proof.
  induction s as [ | c s IH ]; intros prev i n; cbn [search].
  - rewrite match_here_extension. discriminate.
  - destruct (match_here false (atoms re_extension) prev (c :: s))
      as [ k | ] eqn:E.
    + intros _. destruct (match_here_sound _ _ _ E) as (ext & -> & NE & A).
      exists [], ext. auto.
    + destruct (search false (atoms re_extension) (Some c) s)
        as [ [j k] | ] eqn:F; [ | discriminate ].
      intros _. destruct (IH _ _ _ F) as (base & ext & -> & NE & A).
      exists (c :: base), ext. auto.
Qed.

Lemma downloadName_extension (filename base ext : jsstring) :
  has_extension filename base ext ->
  downloadName filename = base ++ js "_documentation.md".
Proof.
  intros (-> & NE & D & S).
  assert (A : forallb (mem plain) ext = true) by (apply plain_all; auto).
  unfold downloadName, replace, replace_first. cbn [global multiline re_extension].
  change (atoms {| atoms := [Chr dot; Plus (NoneOf [slash; dot]); Eol];
                   global := false; multiline := false |})
    with (atoms re_extension).
  rewrite (search_extension base ext None NE A).
  rewrite firstn_app, Nat.sub_diag, firstn_all, firstn_O.
  rewrite skipn_all2 by (rewrite length_app; simpl; lia).
  cbn [app]. rewrite !app_nil_r. reflexivity.
Qed.

Lemma downloadName_plain (filename : jsstring) :
  (forall base ext, ~ has_extension filename base ext) ->
  downloadName filename = filename ++ js "_documentation.md".
Proof.
  intros H.
  unfold downloadName, replace, replace_first. cbn [global multiline re_extension].
  change (atoms {| atoms := [Chr dot; Plus (NoneOf [slash; dot]); Eol];
                   global := false; multiline := false |})
    with (atoms re_extension).
  destruct (search false (atoms re_extension) None filename)
    as [ [i n] | ] eqn:E; [ | reflexivity ].
  destruct (search_sound _ _ _ _ E) as (base & ext & F & NE & A).
  apply plain_all in A as [D S].
  exfalso. apply (H base ext). unfold has_extension. auto.
Qed.

(** A name without a dot has no extension. *)
Lemma no_dot_no_extension (filename : jsstring) :
  ~ In dot filename -> forall base ext, ~ has_extension filename base ext.
Proof.
  intros H base ext (-> & _). apply H, in_or_app. right. left. reflexivity.
Qed.

(** The requests of a submission that went through: exactly one. *)
Lemma generate_issued post content analysis :
  content <> [] ->
  exists file,
    issued (generateFromAnalyzedCode post
              {| codeContent := Some content;
                 analysisResult := Some analysis |})
    = [ documentation_request file ] /\
    fileBits file = [ {| blobParts := [content];
                         blobType := js "text/plain" |} ] /\
    name file = or_else (AnalysisResult.filename analysis) (js "code.py").
Proof.
  intros NE. unfold generateFromAnalyzedCode. cbn [codeContent analysisResult].
  destruct content as [ | c content ]; [ congruence | ].
  cbn [truthy negb].
  eexists. split; [ | split ].
  - unfold generateDocumentation.
    destruct (post _); cbn [issued flat_map app]; reflexivity.
  - reflexivity.
  - reflexivity.
Qed.

(** C8: with code content and an analysis result present, the action
    sends exactly one documentation request; the file it carries holds
    the stored text, and is named after the analysis result, or
    "code.py" when the result has no (or an empty) file name. *)
Theorem generate_from_analysis_request post p content analysis :
  codeContent p = Some content -> content <> [] ->
  analysisResult p = Some analysis ->
  exists file,
    issued (generateFromAnalyzedCode post p) = [ documentation_request file ]
    /\ text file = content
    /\ (forall f, AnalysisResult.filename analysis = Some f -> f <> [] ->
          name file = f)
    /\ (AnalysisResult.filename analysis = None \/
        AnalysisResult.filename analysis = Some [] ->
          name file = js "code.py").
Proof.
  intros C NE A. destruct p as [pc pa]. cbn in C, A. subst pc pa.
  destruct (generate_issued post content analysis NE) as (file & I & B & F).
  exists file. split; [ exact I | split; [ | split ] ].
  - unfold text. rewrite B. cbn. apply app_nil_r.
  - intros f E N. rewrite F, E. destruct f; [ congruence | reflexivity ].
  - intros [E | E]; rewrite F, E; reflexivity.
Qed.

Lemma generate_from_analysis_request_witness :
  (exists file,
    issued (generateFromAnalyzedCode (rejecting _)
              (analyzed (scored 5 (Some 8%float))))
    = [ documentation_request file ]
    /\ text file = source
    /\ (forall f, Some (js "test.py") = Some f -> f <> [] -> name file = f)
    /\ (Some (js "test.py") = None \/ Some (js "test.py") = Some [] ->
          name file = js "code.py")) /\
  (exists file,
    issued (generateFromAnalyzedCode (rejecting _) (analyzed unnamed))
    = [ documentation_request file ]
    /\ text file = source
    /\ (forall f, AnalysisResult.filename unnamed = Some f -> f <> [] ->
          name file = f)
    /\ (AnalysisResult.filename unnamed = None \/
        AnalysisResult.filename unnamed = Some [] ->
          name file = js "code.py")).
Proof.
  split.
  - apply (generate_from_analysis_request (rejecting _)
             (analyzed (scored 5 (Some 8%float))) source
             (scored 5 (Some 8%float)));
      [ reflexivity | discriminate | reflexivity ].
  - apply (generate_from_analysis_request (rejecting _)
             (analyzed unnamed) source unnamed);
      [ reflexivity | discriminate | reflexivity ].
Defined.

(** C7: for a documentation whose file name ends in an extension, the
    download is named by the file name without that extension, followed
    by "_documentation.md". *)
Theorem download_name_replaces_extension st d base ext :
  documentation st = Some d ->
  has_extension (DocumentationResponse.filename d) base ext ->
  exists blob,
    downloadDocumentation st =
      [ Click {| href := blob;
                 download := base ++ js "_documentation.md" |} ].
Proof.
  intros D H. unfold downloadDocumentation. rewrite D.
  rewrite (downloadName_extension _ base ext H). eexists. reflexivity.
Qed.

Lemma download_name_replaces_extension_witness :
  exists blob,
    downloadDocumentation (documented (js "foo.py")) =
      [ Click {| href := blob; download := js "foo_documentation.md" |} ].
Proof.
  apply (download_name_replaces_extension (documented (js "foo.py"))
           {| DocumentationResponse.filename := js "foo.py";
              DocumentationResponse.language := js "Python";
              DocumentationResponse.documentation := js "# Overview" |}
           (js "foo") (js "py")).
  - reflexivity.
  - unfold has_extension. split; [ reflexivity | ].
    split; [ discriminate | ].
    split; vm_compute; intuition discriminate.
Defined.

(** C10: for a documentation whose file name has no extension (no last
    dot followed by one or more characters other than a dot or a slash),
    in particular for a name without any dot, the download is named by
    the whole file name followed by "_documentation.md". *)
Theorem download_name_without_extension st d :
  documentation st = Some d ->
  (forall base ext, ~ has_extension (DocumentationResponse.filename d) base ext)
  ->
  exists blob,
    downloadDocumentation st =
      [ Click {| href := blob;
                 download := DocumentationResponse.filename d
                             ++ js "_documentation.md" |} ].
Proof.
  intros D H. unfold downloadDocumentation. rewrite D.
  rewrite (downloadName_plain _ H). eexists. reflexivity.
Qed.

Lemma download_name_without_extension_witness :
  exists blob,
    downloadDocumentation (documented (js "Makefile")) =
      [ Click {| href := blob; download := js "Makefile_documentation.md" |} ].
Proof.
  apply (download_name_without_extension (documented (js "Makefile"))
           {| DocumentationResponse.filename := js "Makefile";
              DocumentationResponse.language := js "Python";
              DocumentationResponse.documentation := js "# Overview" |}).
  - reflexivity.
  - apply no_dot_no_extension. vm_compute. intuition discriminate.
Defined.

End DocumentationGeneratorFacts.

(* ================================================================== *)
(** * Properties of the matcher *)
(* ================================================================== *)

Module RegExpFacts.
Import Runs.

(** ** Runs *)

Lemma below_no_run c n s : 0 < n -> below c n s -> ~ has_run c n s.
Proof.
  intros P B (a & t & -> & L). induction a as [ | x a IH ].
  - destruct t as [ | y t ]; cbn [app below lead] in *; [ lia | ].
    destruct B as [B _]. lia.
  - destruct B as [_ B]. exact (IH B).
Qed.

Lemma below_app_r c n a s : below c n (a ++ s) -> below c n s.
Proof.
  induction a as [ | x a IH ]; cbn [app below]; [ auto | ].
  intros [_ B]. exact (IH B).
Qed.

Lemma lead_app_le c s t : lead c s <= lead c (s ++ t).
Proof.
  induction s as [ | x s IH ]; cbn [app lead]; [ lia | ].
  destruct (x =? c)%N; lia.
Qed.

Lemma below_app_l c n s t : below c n (s ++ t) -> below c n s.
Proof.
  induction s as [ | x s IH ]; cbn [below]; [ auto | ].
  change ((x :: s) ++ t) with (x :: (s ++ t)). cbn [below].
  intros [L B]. split; [ | exact (IH B) ].
  pose proof (lead_app_le c (x :: s) t). simpl app in H. lia.
Qed.

(** [includes] of the triple run, by runs. *)
Lemma startsWith_three c s :
  startsWith [c; c; c] s = (3 <=? lead c s).
Proof.
  destruct s as [ | x1 [ | x2 [ | x3 s ] ] ]; cbn [startsWith lead];
    rewrite ?(N.eqb_sym c); try reflexivity.
  - destruct (x1 =? c)%N; reflexivity.
  - destruct (x1 =? c)%N; [ | reflexivity ].
    destruct (x2 =? c)%N; reflexivity.
  - destruct (x1 =? c)%N; [ | reflexivity ].
    destruct (x2 =? c)%N; [ | reflexivity ].
    destruct (x3 =? c)%N; reflexivity.
Qed.

Lemma includes_three c s :
  includes s [c; c; c] = false <-> below c 3 s.
Proof.
  induction s as [ | x s IH ].
  - cbn. tauto.
  - change (includes (x :: s) [c; c; c])
      with (startsWith [c; c; c] (x :: s) || includes s [c; c; c]).
    rewrite orb_false_iff, IH, startsWith_three, Nat.leb_gt.
    cbn [below]. tauto.
Qed.

(** ** The length of a match *)

Lemma many_bounds c k lo : 
  (forall prev t n, k prev t = Some n -> lo <= n <= length t) ->
  forall s min prev n,
    many c k min prev s = Some n -> min + lo <= n <= length s.
Proof.
  intros K. induction s as [ | x s IH ]; intros min prev n; cbn [many].
  - destruct min; cbn [stop]; [ | discriminate ].
    intros H. apply K in H. simpl in *. lia.
  - destruct (mem c x).
    + destruct (many c k (pred min) (Some x) s) as [ j | ] eqn:E.
      * intros H. inversion H. subst. apply IH in E.
        destruct min; simpl in *; lia.
      * destruct min; cbn [stop]; [ | discriminate ].
        intros H. apply K in H. simpl in *. lia.
    + destruct min; cbn [stop]; [ | discriminate ].
      intros H. apply K in H. simpl in *. lia.
Qed.

(** A match is at least as long as the pattern demands and no longer than
    the text. *)
Lemma match_here_bounds m r : forall prev s n,
  match_here m r prev s = Some n -> min_len r <= n <= length s.
Proof.
  induction r as [ | a r IH ]; intros prev s n; cbn [match_here].
  - intros H. inversion H. cbn. lia.
  - cbn [min_len].
    destruct a as [ c | c min | | ]; cbn [least].
    + destruct s as [ | x s ]; [ discriminate | ].
      destruct (x =? c)%N; [ | discriminate ].
      destruct (match_here m r (Some x) s) as [ j | ] eqn:E; [ | discriminate ].
      intros H. inversion H. apply IH in E. cbn [length]. lia.
    + intros H. apply (many_bounds c (match_here m r) (min_len r) IH) in H.
      exact H.
    + destruct (at_bol m prev); [ apply IH | discriminate ].
    + destruct (at_eol m s); [ apply IH | discriminate ].
Qed.

Lemma search_bounds m r : forall s prev i n,
  search m r prev s = Some (i, n) -> min_len r <= n /\ i + n <= length s.
Proof.
  induction s as [ | x s IH ]; intros prev i n; cbn [search].
  - destruct (match_here m r prev []) as [ j | ] eqn:E; [ | discriminate ].
    intros H. inversion H. subst. apply match_here_bounds in E. simpl in *. lia.
  - destruct (match_here m r prev (x :: s)) as [ j | ] eqn:E.
    + intros H. inversion H. subst. apply match_here_bounds in E.
      simpl in *. lia.
    + destruct (search m r (Some x) s) as [ [j k] | ] eqn:F; [ | discriminate ].
      intros H. inversion H. subst. apply IH in F. simpl. lia.
Qed.

(** ** Patterns that end in [$] *)

Lemma many_anchored c k :
  (forall prev t n, k prev t = Some n -> n = length t) ->
  forall s min prev n, many c k min prev s = Some n -> n = length s.
Proof.
  intros K. induction s as [ | x s IH ]; intros min prev n; cbn [many].
  - destruct min; cbn [stop]; [ apply K | discriminate ].
  - destruct (mem c x).
    + destruct (many c k (pred min) (Some x) s) as [ j | ] eqn:E.
      * intros H. inversion H. apply IH in E. simpl. lia.
      * destruct min; cbn [stop]; [ apply K | discriminate ].
    + destruct min; cbn [stop]; [ apply K | discriminate ].
Qed.

(** Without the m flag, a match of a pattern that ends in [$] runs to the
    end of the text. *)
Lemma match_here_anchored r : forall prev s n,
  match_here false (r ++ [Eol]) prev s = Some n -> n = length s.
Proof.
  induction r as [ | a r IH ]; intros prev s n; cbn [app match_here].
  - destruct s as [ | x s ]; cbn [at_eol andb]; [ | discriminate ].
    intros H. inversion H. reflexivity.
  - destruct a as [ c | c min | | ].
    + destruct s as [ | x s ]; [ discriminate | ].
      destruct (x =? c)%N; [ | discriminate ].
      destruct (match_here false (r ++ [Eol]) (Some x) s) as [ j | ] eqn:E;
        [ | discriminate ].
      intros H. inversion H. apply IH in E. simpl. lia.
    + apply many_anchored. exact IH.
    + destruct (at_bol false prev); [ apply IH | discriminate ].
    + destruct (at_eol false s); [ apply IH | discriminate ].
Qed.

Lemma search_anchored r : forall s prev i n,
  search false (r ++ [Eol]) prev s = Some (i, n) -> i + n = length s.
Proof.
  induction s as [ | x s IH ]; intros prev i n; cbn [search].
  - destruct (match_here false (r ++ [Eol]) prev []) as [ j | ] eqn:E;
      [ | discriminate ].
    intros H. inversion H. subst. apply match_here_anchored in E. simpl in *. lia.
  - destruct (match_here false (r ++ [Eol]) prev (x :: s)) as [ j | ] eqn:E.
    + intros H. inversion H. subst. apply match_here_anchored in E.
      simpl in *. lia.
    + destruct (search false (r ++ [Eol]) (Some x) s) as [ [j k] | ] eqn:F;
        [ | discriminate ].
      intros H. inversion H. subst. apply IH in F. simpl. lia.
Qed.

(** Removing the first match of such a pattern leaves a prefix of the
    text. *)
Lemma replace_first_anchored r s :
  exists t, s = replace_first false (r ++ [Eol]) [] s ++ t.
Proof.
  unfold replace_first.
  destruct (search false (r ++ [Eol]) None s) as [ [i n] | ] eqn:E.
  - apply search_anchored in E.
    rewrite skipn_all2 by lia. cbn [app]. rewrite app_nil_r.
    exists (skipn i s). symmetry. apply firstn_skipn.
  - exists []. symmetry. apply app_nil_r.
Qed.

(** ** Patterns that match nowhere *)

Lemma replace_all_quiet m r by_ : forall s prev,
  quiet m r s -> replace_all m r by_ prev 0 s = s.
Proof.
  induction s as [ | x s IH ]; intros prev [Q R]; cbn [replace_all];
    rewrite Q; [ reflexivity | ].
  rewrite (IH (Some x) R). reflexivity.
Qed.

Lemma search_quiet m r : forall s prev,
  quiet m r s -> search m r prev s = None.
Proof.
  induction s as [ | x s IH ]; intros prev [Q R]; cbn [search]; rewrite Q;
    [ reflexivity | ].
  rewrite (IH (Some x) R). reflexivity.
Qed.

Lemma replace_quiet re by_ s :
  quiet (multiline re) (atoms re) s -> replace re by_ s = s.
Proof.
  intros Q. unfold replace, replace_first. destruct (global re).
  - apply replace_all_quiet, Q.
  - rewrite (search_quiet _ _ _ _ Q). reflexivity.
Qed.

End RegExpFacts.

(* ================================================================== *)
(** * More properties of the Markdown renderer *)
(* ================================================================== *)

Module CleanupFacts.
Import Runs RegExpFacts MarkdownRenderer.

(** ** White space at the ends *)

Lemma trimStart_split (s : jsstring) :
  exists w, s = w ++ trimStart s /\ forallb isWhiteSpace w = true.
Proof.
  induction s as [ | x s (w & E & W) ]; cbn [trimStart].
  - exists []. auto.
  - destruct (isWhiteSpace x) eqn:X.
    + exists (x :: w). cbn [app forallb]. rewrite X, W, <- E. auto.
    + exists []. auto.
Qed.

Lemma trimStart_clean (s : jsstring) : clean_head (trimStart s).
Proof.
  induction s as [ | x s IH ]; cbn [trimStart]; [ exact I | ].
  destruct (isWhiteSpace x) eqn:X; [ exact IH | exact X ].
Qed.

Lemma trimStart_fix (s : jsstring) : clean_head s -> trimStart s = s.
Proof.
  destruct s as [ | x s ]; cbn [clean_head trimStart]; [ reflexivity | ].
  intros ->. reflexivity.
Qed.

Lemma trimEnd_split (s : jsstring) :
  exists w, s = trimEnd s ++ w /\ forallb isWhiteSpace w = true.
Proof.
  destruct (trimStart_split (rev s)) as (w & E & W).
  exists (rev w). split.
  - unfold trimEnd. rewrite <- rev_app_distr, <- E, rev_involutive.
    reflexivity.
  - rewrite forallb_forall in *. intros x I. apply W, in_rev, I.
Qed.

Lemma trimEnd_clean (s : jsstring) : clean_head s -> clean_head (trimEnd s).
Proof.
  intros C. destruct (trimEnd_split s) as (w & E & _).
  destruct (trimEnd s) as [ | y t ]; [ exact I | ].
  rewrite E in C. exact C.
Qed.

Lemma trimEnd_idem (s : jsstring) : trimEnd (trimEnd s) = trimEnd s.
Proof.
  unfold trimEnd. rewrite rev_involutive.
  rewrite (trimStart_fix _ (trimStart_clean (rev s))). reflexivity.
Qed.

(** The result of [trim] neither starts nor ends with white space. *)
Lemma trim_trimmed (s : jsstring) : trimmed (trim s).
Proof.
  unfold trimmed, trim. split.
  - apply trimStart_fix, trimEnd_clean, trimStart_clean.
  - apply trimEnd_idem.
Qed.

Lemma trim_fix (s : jsstring) : trimmed s -> trim s = s.
Proof. intros [A B]. unfold trim. rewrite A. exact B. Qed.

Lemma trim_idem (s : jsstring) : trim (trim s) = trim s.
Proof. apply trim_fix, trim_trimmed. Qed.

(** [trim] cuts white space off the two ends and nothing else. *)
Lemma trim_split (s : jsstring) :
  exists a b, s = a ++ trim s ++ b.
Proof.
  destruct (trimStart_split s) as (a & E & _).
  destruct (trimEnd_split (trimStart s)) as (b & F & _).
  exists a, b. unfold trim. rewrite <- F. exact E.
Qed.

Lemma below_trim c n s : below c n s -> below c n (trim s).
Proof.
  destruct (trim_split s) as (a & b & E). intros B. rewrite E in B.
  apply below_app_r in B. apply below_app_l in B. exact B.
Qed.

Lemma trimmed_ends (s : jsstring) :
  trimmed s ->
  forall x rest,
    (s = x :: rest -> isWhiteSpace x = false) /\
    (s = rest ++ [x] -> isWhiteSpace x = false).
Proof.
  intros [A B] x rest. split; intros E.
  - pose proof (trimStart_clean s) as C. rewrite A, E in C. exact C.
  - pose proof (trimStart_clean (rev s)) as C.
    unfold trimEnd in B. apply (f_equal (@rev N)) in B.
    rewrite rev_involutive in B. rewrite B, E, rev_app_distr in C.
    exact C.
Qed.

(** ** Runs under the matcher *)

Lemma has_run_cons c n x s : has_run c n s -> has_run c n (x :: s).
Proof. intros (a & t & -> & L). exists (x :: a), t. auto. Qed.

Lemma many_has_run (c : cls) k d n :
  (forall prev t j, k prev t = Some j -> has_run d n t) ->
  forall s min prev j, many c k min prev s = Some j -> has_run d n s.
Proof.
  intros K. induction s as [ | x s IH ]; intros min prev j; cbn [many].
  - destruct min; cbn [stop]; [ apply K | discriminate ].
  - destruct (mem c x).
    + destruct (many c k (pred min) (Some x) s) as [ i | ] eqn:E.
      * intros _. apply has_run_cons. exact (IH _ _ _ E).
      * destruct min; cbn [stop]; [ apply K | discriminate ].
    + destruct min; cbn [stop]; [ apply K | discriminate ].
Qed.

(** The rule pattern [---+] only matches at three hyphens. *)
Lemma match_rule_here m post prev s n :
  match_here m (rule ++ post) prev s = Some n -> 3 <= lead dash s.
Proof.
  unfold rule. cbn [app match_here].
  destruct s as [ | x1 s ]; [ discriminate | ].
  destruct (N.eqb_spec x1 dash) as [ -> | ]; [ | discriminate ].
  destruct s as [ | x2 s ]; [ discriminate | ].
  destruct (N.eqb_spec x2 dash) as [ -> | ]; [ | discriminate ].
  destruct s as [ | x3 s ]; cbn [many stop option_map]; [ discriminate | ].
  cbn [mem]. destruct (N.eqb_spec x3 dash) as [ -> | ];
    [ | cbn [stop option_map]; discriminate ].
  intros _. cbn [lead]. rewrite !N.eqb_refl. lia.
Qed.

(** A pattern that holds the rule pattern only matches a text with three
    hyphens in a row. *)
Lemma match_needs_rule m pre post : forall prev s n,
  match_here m (pre ++ rule ++ post) prev s = Some n -> has_run dash 3 s.
Proof.
  induction pre as [ | a pre IH ]; intros prev s n.
  - cbn [app]. intros H. exists [], s. split; [ reflexivity | ].
    exact (match_rule_here _ _ _ _ _ H).
  - change ((a :: pre) ++ rule ++ post) with (a :: (pre ++ rule ++ post)).
    cbn [match_here]. destruct a as [ c | c min | | ].
    + destruct s as [ | x s ]; [ discriminate | ].
      destruct (x =? c)%N; [ | discriminate ].
      destruct (match_here m (pre ++ rule ++ post) (Some x) s) as [ j | ] eqn:E;
        [ | discriminate ].
      intros _. apply has_run_cons. exact (IH _ _ _ E).
    + apply many_has_run. exact IH.
    + destruct (at_bol m prev); [ apply IH | discriminate ].
    + destruct (at_eol m s); [ apply IH | discriminate ].
Qed.

Lemma quiet_without_rule m pre post : forall s,
  below dash 3 s -> quiet m (pre ++ rule ++ post) s.
Proof.
  induction s as [ | x s IH ]; intros B; cbn [quiet]; split.
  - intros prev.
    destruct (match_here m (pre ++ rule ++ post) prev []) eqn:E;
      [ | reflexivity ].
    apply match_needs_rule in E. exfalso.
    revert E. apply below_no_run; [ lia | exact B ].
  - exact I.
  - intros prev.
    destruct (match_here m (pre ++ rule ++ post) prev (x :: s)) eqn:E;
      [ | reflexivity ].
    apply match_needs_rule in E. exfalso.
    revert E. apply below_no_run; [ lia | exact B ].
  - apply IH. destruct B as [_ B]. exact B.
Qed.

(** The run pattern [c{min,}] at the end of a pattern takes the whole
    run. *)
Lemma many_run m c : forall s min prev,
  many (One c) (match_here m []) min prev s =
    if min <=? lead c s then Some (lead c s) else None.
Proof.
  induction s as [ | x s IH ]; intros min prev; cbn [many lead mem].
  - destruct min; reflexivity.
  - destruct (x =? c)%N.
    + rewrite IH. destruct min as [ | min ]; cbn [pred].
      * cbn [Nat.leb]. reflexivity.
      * cbn [Nat.leb stop]. destruct (min <=? lead c s); reflexivity.
    + destruct min; reflexivity.
Qed.

End CleanupFacts.

Module CollapseFacts.
Import Runs RegExpFacts MarkdownRenderer CleanupFacts Scenarios.

Lemma collapse_unfold (s : jsstring) :
  collapse s = replace_all false [Rep (One LF) 3] [LF; LF] None 0 s.
Proof. reflexivity. Qed.

Lemma match_blank prev s :
  match_here false [Rep (One LF) 3] prev s =
    if 3 <=? lead LF s then Some (lead LF s) else None.
Proof. exact (many_run false LF s 3 prev). Qed.

(** The output of the collapse, from any point of the scan: its runs of
    newlines are shorter than three, and it starts with the run of the
    input cut to two. *)
Lemma collapse_inv : forall s prev skip,
  skip = 0 \/ skip = lead LF s ->
  below LF 3 (replace_all false [Rep (One LF) 3] [LF; LF] prev skip s) /\
  lead LF (replace_all false [Rep (One LF) 3] [LF; LF] prev skip s)
  = if skip =? 0 then Nat.min (lead LF s) 2 else 0.
Proof.
  induction s as [ | x s IH ]; intros prev skip K.
  - destruct skip; cbn; auto.
  - destruct skip as [ | k ].
    + cbn [replace_all Nat.eqb]. rewrite match_blank. cbn [lead].
      destruct (N.eqb_spec x LF) as [ -> | NE ].
      * destruct (3 <=? S (lead LF s)) eqn:L.
        -- apply Nat.leb_le in L.
           destruct (IH (Some LF) (lead LF s) (or_intror eq_refl)) as [B E].
           destruct (lead LF s =? 0) eqn:Z;
             [ apply Nat.eqb_eq in Z; lia | ].
           cbn [app below lead]. rewrite !N.eqb_refl, E.
           repeat split; try lia; auto.
        -- apply Nat.leb_gt in L.
           destruct (IH (Some LF) 0 (or_introl eq_refl)) as [B E].
           cbn [Nat.eqb] in E.
           cbn [below lead]. rewrite N.eqb_refl, E.
           repeat split; try lia; auto.
      * cbn [Nat.leb].
        destruct (IH (Some x) 0 (or_introl eq_refl)) as [B E].
        cbn [below lead]. apply N.eqb_neq in NE. rewrite NE.
        repeat split; try lia; auto.
    + destruct K as [K | K]; [ discriminate | ].
      cbn [lead] in K. destruct (N.eqb_spec x LF) as [ -> | ];
        [ | discriminate ].
      injection K as K. cbn [replace_all Nat.eqb].
      destruct k as [ | k ].
      * destruct (IH (Some LF) 0 (or_introl eq_refl)) as [B E].
        cbn [Nat.eqb] in E. rewrite <- K in E. split; [ exact B | exact E ].
      * destruct (IH (Some LF) (S k) (or_intror K)) as [B E].
        cbn [Nat.eqb] in E. split; [ exact B | exact E ].
Qed.

(** The collapse adds no run of another character. *)
Lemma collapse_keeps c n : c <> LF -> 0 < n -> forall s prev skip,
  skip = 0 \/ skip = lead LF s ->
  below c n s ->
  below c n (replace_all false [Rep (One LF) 3] [LF; LF] prev skip s) /\
  (skip = 0 ->
   lead c (replace_all false [Rep (One LF) 3] [LF; LF] prev skip s)
   <= lead c s).
Proof.
  intros NE P. assert (NE' : (LF =? c)%N = false) by (apply N.eqb_neq; auto).
  induction s as [ | x s IH ]; intros prev skip K B.
  - destruct skip; cbn; auto.
  - destruct B as [L B]. destruct skip as [ | k ].
    + cbn [replace_all]. rewrite match_blank. cbn [lead].
      destruct (N.eqb_spec x LF) as [ -> | NX ].
      * destruct (3 <=? S (lead LF s)) eqn:T.
        -- destruct (IH (Some LF) (lead LF s) (or_intror eq_refl) B) as [B' _].
           cbn [app below lead]. rewrite NE'.
           repeat split; try lia; auto.
        -- destruct (IH (Some LF) 0 (or_introl eq_refl) B) as [B' E].
           cbn [below lead]. rewrite NE'.
           repeat split; try lia; auto.
      * cbn [Nat.leb].
        destruct (IH (Some x) 0 (or_introl eq_refl) B) as [B' E].
        specialize (E eq_refl). cbn [lead] in L.
        cbn [below lead]. destruct (x =? c)%N;
          repeat split; try lia; auto.
    + destruct K as [K | K]; [ discriminate | ].
      cbn [lead] in K. destruct (N.eqb_spec x LF) as [ -> | ];
        [ | discriminate ].
      injection K as K. cbn [replace_all].
      split; [ | discriminate ].
      destruct k as [ | k ].
      * exact (proj1 (IH (Some LF) 0 (or_introl eq_refl) B)).
      * exact (proj1 (IH (Some LF) (S k) (or_intror K) B)).
Qed.

Lemma collapse_below (s : jsstring) : below LF 3 (collapse s).
Proof.
  rewrite collapse_unfold. exact (proj1 (collapse_inv s None 0 (or_introl eq_refl))).
Qed.

Lemma collapse_keeps_below c n s :
  c <> LF -> 0 < n -> below c n s -> below c n (collapse s).
Proof.
  intros NE P B. rewrite collapse_unfold.
  exact (proj1 (collapse_keeps c n NE P s None 0 (or_introl eq_refl) B)).
Qed.

Lemma quiet_blank : forall s,
  below LF 3 s -> quiet false [Rep (One LF) 3] s.
Proof.
  induction s as [ | x s IH ]; intros B; cbn [quiet]; split.
  - intros prev. rewrite match_blank. reflexivity.
  - exact I.
  - intros prev. rewrite match_blank. destruct B as [L _].
    apply Nat.leb_gt in L. rewrite L. reflexivity.
  - destruct B as [_ B]. exact (IH B).
Qed.

(** A text without three newlines in a row is left as it is. *)
Lemma collapse_fix (s : jsstring) : below LF 3 s -> collapse s = s.
Proof. intros B. apply replace_quiet, quiet_blank, B. Qed.

(** The seven rule patterns of the cleanup. *)
Lemma rule_free_replace (re : regex) (by_ s : jsstring) :
  In re [ re_nl_rule_end; re_rule_end_g; re_nl_rule_nl; re_nl_rule_crlf;
          re_crlf_rule_crlf; re_rule_line; re_rule_end ] ->
  below dash 3 s -> replace re by_ s = s.
Proof.
  intros I B. apply replace_quiet. cbn [In] in I.
  destruct I as [ <- | [ <- | [ <- | [ <- | [ <- | [ <- | [ <- | [] ] ] ] ] ] ] ].
  - exact (quiet_without_rule false [Chr LF] [Star Space; Eol] s B).
  - exact (quiet_without_rule false [] [Star Space; Eol] s B).
  - exact (quiet_without_rule false [Chr LF] [Chr LF] s B).
  - exact (quiet_without_rule false [Chr LF] [Chr CR; Chr LF] s B).
  - exact (quiet_without_rule false [Chr CR; Chr LF] [Chr CR; Chr LF] s B).
  - exact (quiet_without_rule true [Bol] [Star Space; Eol] s B).
  - exact (quiet_without_rule false [] [Star Space; Eol] s B).
Qed.

(** On a text without a rule the cleanup is the collapse of blank lines
    followed by the trim. *)
Lemma cleaned_plain (s : jsstring) :
  below dash 3 s -> cleanedContent s = trim (collapse s).
Proof.
  intros B. unfold cleanedContent. cbv zeta.
  rewrite (rule_free_replace re_nl_rule_end [] s) by (cbn; auto 10).
  rewrite (rule_free_replace re_rule_end_g [] s) by (cbn; auto 10).
  rewrite (rule_free_replace re_nl_rule_nl _ s) by (cbn; auto 10).
  rewrite (rule_free_replace re_nl_rule_crlf _ s) by (cbn; auto 10).
  rewrite (rule_free_replace re_crlf_rule_crlf _ s) by (cbn; auto 10).
  rewrite (rule_free_replace re_rule_line [] s) by (cbn; auto 10).
  rewrite (rule_free_replace re_rule_end [] s) by (cbn; auto 10).
  fold (collapse s).
  assert (D : dash <> LF) by discriminate.
  rewrite (rule_free_replace re_rule_end [] (trim (collapse s)));
    [ apply trim_idem | cbn; auto 10 | ].
  apply below_trim, collapse_keeps_below; [ exact D | lia | exact B ].
Qed.

(** The removal of a trailing rule leaves a prefix. *)
Lemma rule_end_prefix (s : jsstring) :
  exists t, s = replace re_rule_end [] s ++ t.
Proof. exact (replace_first_anchored (rule ++ [Star Space]) s). Qed.

Lemma cleaned_below (content : jsstring) :
  below LF 3 (cleanedContent content).
Proof.
  unfold cleanedContent. cbv zeta.
  match goal with
  | |- below _ _ (trim (replace _ _ (trim (replace re_blank_lines _ ?c)))) =>
      fold (collapse c); pose proof (collapse_below c) as B
  end.
  apply below_trim.
  match goal with
  | |- below _ _ (replace _ _ ?t) =>
      destruct (rule_end_prefix t) as (r & E);
      apply (below_app_l LF 3 _ r); rewrite <- E
  end.
  apply below_trim, B.
Qed.

(** X1: the cleaned content neither starts nor ends with white space. *)
Theorem cleaned_has_clean_ends (content : jsstring) (x : N)
    (rest : jsstring) :
  (cleanedContent content = x :: rest -> isWhiteSpace x = false) /\
  (cleanedContent content = rest ++ [x] -> isWhiteSpace x = false).
Proof.
  apply trimmed_ends. unfold cleanedContent. cbv zeta. apply trim_trimmed.
Qed.

(** X2: the cleaned content never holds three newlines in a row. *)
Theorem cleaned_has_no_blank_run (content : jsstring) :
  includes (cleanedContent content) [LF; LF; LF] = false.
Proof. apply includes_three, cleaned_below. Qed.

(** X3: on content without three hyphens in a row the cleanup is the
    collapse of blank lines followed by the trim, and it is idempotent. *)
Theorem cleaned_idempotent_without_rule (content : jsstring) :
  includes content (js "---") = false ->
  cleanedContent content = trim (collapse content) /\
  cleanedContent (cleanedContent content) = cleanedContent content.
Proof.
  intros I. change (js "---") with [dash; dash; dash] in I.
  apply includes_three in I.
  assert (D : dash <> LF) by discriminate.
  rewrite (cleaned_plain content I). split; [ reflexivity | ].
  assert (B : below dash 3 (trim (collapse content))).
  { apply below_trim, collapse_keeps_below; [ exact D | lia | exact I ]. }
  rewrite (cleaned_plain _ B).
  rewrite (collapse_fix (trim (collapse content))).
  - apply trim_idem.
  - apply below_trim, collapse_below.
Qed.

Lemma cleaned_idempotent_without_rule_witness :
  cleanedContent spaced = trim (collapse spaced) /\
  cleanedContent (cleanedContent spaced) = cleanedContent spaced.
Proof.
  apply (cleaned_idempotent_without_rule spaced). reflexivity.
Defined.

End CollapseFacts.

Module TrailingRuleFacts.
Import Runs RegExpFacts MarkdownRenderer CleanupFacts CollapseFacts Scenarios.

(** A greedy repetition over a run that the rest of the pattern accepts
    from its end takes the whole run. *)
Lemma many_greedy (c : cls) k (rest : jsstring) (j : nat) :
  (forall prev, k prev rest = Some j) ->
  forall (a : jsstring) min prev,
    forallb (mem c) a = true -> min <= length a ->
    match rest with [] => True | x :: _ => mem c x = false end ->
    many c k min prev (a ++ rest) = Some (length a + j).
Proof.
  intros K. induction a as [ | x a IH ]; intros min prev A L R.
  - cbn [app length] in *. assert (min = 0) as -> by lia.
    destruct rest as [ | y rest ]; cbn [many stop]; [ apply K | ].
    rewrite R. cbn [stop]. apply K.
  - cbn [forallb] in A. apply andb_true_iff in A as [X A].
    cbn [app many]. rewrite X.
    rewrite (IH (pred min) (Some x) A) by (cbn [length] in L; lia || exact R).
    reflexivity.
Qed.

Lemma repeat_run c n : forallb (mem (One c)) (repeat c n) = true.
Proof.
  induction n as [ | n IH ]; cbn [repeat forallb mem]; [ reflexivity | ].
  rewrite N.eqb_refl. exact IH.
Qed.

Lemma blank_is_no_hyphen (x : N) :
  isWhiteSpace x = true -> mem (One dash) x = false.
Proof.
  intros W. cbn [mem]. destruct (N.eqb_spec x dash) as [ -> | ];
    [ discriminate | reflexivity ].
Qed.

(** The first pattern of the cleanup matches the whole tail. *)
Lemma tail_matches prev k ws :
  forallb isWhiteSpace ws = true ->
  match_here false (atoms re_nl_rule_end) prev (rule_tail k ws)
  = Some (length (rule_tail k ws)).
Proof.
  intros W. unfold rule_tail.
  assert (E : match_here false (atoms re_nl_rule_end) prev
                (LF :: repeat dash (3 + k) ++ ws)
              = option_map S (option_map S (option_map S
                  (many (One dash) (match_here false [Rep Space 0; Eol]) 1
                     (Some dash) (repeat dash (1 + k) ++ ws)))))
    by reflexivity.
  rewrite E. clear E.
  assert (S : forall p, match_here false [Rep Space 0; Eol] p ws
                        = Some (length ws)).
  { intros p.
    change (match_here false [Rep Space 0; Eol] p ws)
      with (many Space (match_here false [Eol]) 0 p ws).
    pose proof (many_greedy Space (match_here false [Eol]) [] 0
                  (fun _ => eq_refl) ws 0 p W (Nat.le_0_l _) I) as H.
    rewrite app_nil_r, Nat.add_0_r in H. exact H. }
  assert (R : match ws with [] => True | x :: _ => mem (One dash) x = false end).
  { destruct ws as [ | x ws ]; [ exact I | ].
    cbn [forallb] in W. apply andb_true_iff in W as [X _].
    exact (blank_is_no_hyphen x X). }
  assert (L : 1 <= length (repeat dash (1 + k)))
    by (rewrite repeat_length; lia).
  rewrite (many_greedy (One dash) _ ws (length ws) S (repeat dash (1 + k)) 1
             (Some dash) (repeat_run dash (1 + k)) L R).
  cbn [option_map length]. rewrite !length_app, !repeat_length.
  reflexivity.
Qed.

Lemma lead_app_stop c x (t u : jsstring) :
  x <> c -> lead c (t ++ x :: u) = lead c t.
Proof.
  intros NE. induction t as [ | y t IH ]; cbn [app lead].
  - apply N.eqb_neq in NE. rewrite NE. reflexivity.
  - rewrite IH. reflexivity.
Qed.

Lemma below_lead c n (t : jsstring) : 0 < n -> below c n t -> lead c t < n.
Proof. destruct t; cbn [below lead]; [ lia | tauto ]. Qed.

(** Inside a body without a rule, the pattern does not match. *)
Lemma body_is_quiet prev k ws (x : N) (b : jsstring) :
  below dash 3 (x :: b) ->
  match_here false (atoms re_nl_rule_end) prev (x :: b ++ rule_tail k ws)
  = None.
Proof.
  intros [_ B].
  change (atoms re_nl_rule_end)
    with (Chr LF :: rule ++ [Rep Space 0; Eol]).
  cbn [match_here]. destruct (x =? LF)%N; [ | reflexivity ].
  destruct (match_here false (rule ++ [Rep Space 0; Eol]) (Some x)
              (b ++ rule_tail k ws)) as [ n | ] eqn:E; [ | reflexivity ].
  apply match_rule_here in E. unfold rule_tail in E.
  rewrite lead_app_stop in E by discriminate.
  pose proof (below_lead dash 3 b ltac:(lia) B). lia.
Qed.

Lemma replace_all_skips m r : forall (s : jsstring) prev,
  replace_all m r [] prev (length s) s = [].
Proof.
  induction s as [ | x s IH ]; intros prev; cbn [length replace_all].
  - destruct (match_here m r prev []) as [ [ | n ] | ]; reflexivity.
  - apply IH.
Qed.

Lemma replace_all_tail k ws : forall (b : jsstring) prev,
  forallb isWhiteSpace ws = true -> below dash 3 b ->
  replace_all false (atoms re_nl_rule_end) [] prev 0 (b ++ rule_tail k ws)
  = b.
Proof.
  induction b as [ | x b IH ]; intros prev W B.
  - cbn [app]. pose proof (tail_matches prev k ws W) as T.
    unfold rule_tail in *. cbn [replace_all]. rewrite T.
    cbn [length app]. apply replace_all_skips.
  - change ((x :: b) ++ rule_tail k ws) with (x :: b ++ rule_tail k ws).
    cbn [replace_all]. rewrite (body_is_quiet prev k ws x b B).
    rewrite (IH (Some x) W (proj2 B)). reflexivity.
Qed.

(** X4: a rule on the last line, with three or more hyphens and any white
    space after it, is removed from a content that has no other rule: the
    cleanup gives what it gives for the content without that line. *)
Theorem trailing_rule_is_removed (body ws : jsstring) (k : nat) :
  includes body (js "---") = false ->
  forallb isWhiteSpace ws = true ->
  cleanedContent (body ++ rule_tail k ws) = cleanedContent body.
Proof.
  intros I W. change (js "---") with [dash; dash; dash] in I.
  apply includes_three in I.
  unfold cleanedContent. cbv zeta.
  assert (E1 : replace re_nl_rule_end [] (body ++ rule_tail k ws) = body)
    by exact (replace_all_tail k ws body None W I).
  assert (E2 : replace re_nl_rule_end [] body = body)
    by (apply rule_free_replace; [ cbn; auto | exact I ]).
  rewrite E1, E2. reflexivity.
Qed.

Lemma trailing_rule_is_removed_witness :
  cleanedContent (two_paragraphs ++ rule_tail 1 [LF])
  = cleanedContent two_paragraphs.
Proof.
  apply (trailing_rule_is_removed two_paragraphs [LF] 1); reflexivity.
Defined.

End TrailingRuleFacts.

Module CodeElementFacts.
Import Runs RegExpFacts MarkdownRenderer.

Lemma strip_unfold (s : jsstring) :
  strip s = replace_first false [Chr LF; Eol] [] s.
Proof. reflexivity. Qed.

Lemma final_newline_here prev (s : jsstring) :
  match_here false [Chr LF; Eol] prev s =
    match s with
    | [x] => if (x =? LF)%N then Some 1 else None
    | _ => None
    end.
Proof.
  destruct s as [ | x [ | y s ] ]; cbn [match_here at_eol andb option_map];
    try reflexivity; destruct (x =? LF)%N; reflexivity.
Qed.

Lemma search_final_newline (t : jsstring) : forall prev,
  search false [Chr LF; Eol] prev (t ++ [LF]) = Some (length t, 1).
Proof.
  induction t as [ | x t IH ]; intros prev; cbn [app search].
  - rewrite final_newline_here, N.eqb_refl. reflexivity.
  - rewrite final_newline_here.
    destruct (t ++ [LF]) as [ | y r ] eqn:E;
      [ destruct t; discriminate | ].
    rewrite (IH (Some x)). reflexivity.
Qed.

Lemma search_final_newline_sound (s : jsstring) : forall prev i n,
  search false [Chr LF; Eol] prev s = Some (i, n) ->
  exists t, s = t ++ [LF].
Proof.
  induction s as [ | x s IH ]; intros prev i n; cbn [search];
    rewrite final_newline_here.
  - discriminate.
  - destruct s as [ | y s ].
    + destruct (N.eqb_spec x LF) as [ -> | ].
      * intros _. exists []. reflexivity.
      * cbn [search]. rewrite final_newline_here. discriminate.
    + destruct (search false [Chr LF; Eol] (Some x) (y :: s))
        as [ [j k] | ] eqn:E; [ | discriminate ].
      intros _. destruct (IH _ _ _ E) as (t & F).
      exists (x :: t). rewrite F. reflexivity.
Qed.

(** X5: the text of a code element loses one final newline, and nothing
    else: a text that does not end in a newline is kept as it is. *)
Theorem strip_takes_one_newline :
  (forall t, strip (t ++ [LF]) = t) /\
  (forall s, (forall t, s <> t ++ [LF]) -> strip s = s).
Proof.
  split.
  - intros t. rewrite strip_unfold. unfold replace_first.
    rewrite search_final_newline.
    rewrite firstn_app, Nat.sub_diag, firstn_all, firstn_O.
    rewrite skipn_all2 by (rewrite length_app; simpl; lia).
    cbn [app]. rewrite !app_nil_r. reflexivity.
  - intros s H. rewrite strip_unfold. unfold replace_first.
    destruct (search false [Chr LF; Eol] None s) as [ [i n] | ] eqn:E;
      [ | reflexivity ].
    destruct (search_final_newline_sound _ _ _ _ E) as (t & F).
    destruct (H t F).
Qed.

Lemma skipn_truthy (k : nat) : forall w : jsstring,
  k < length w -> truthy (skipn k w) = true.
Proof.
  induction k as [ | k IH ]; intros [ | x w ]; cbn [length skipn truthy];
    try lia; try reflexivity.
  intros L. apply IH. lia.
Qed.

(** A declared language tag is never empty. *)
Lemma declared_truthy (className : option jsstring) (l : jsstring) :
  declared className = Some l -> truthy l = true.
Proof.
  unfold declared, exec.
  destruct (search (multiline re_language) (atoms re_language) None
              (or_else className [])) as [ [i n] | ] eqn:E; [ | discriminate ].
  intros H. injection H as <-.
  apply search_bounds in E. destruct E as [M L].
  change (min_len (atoms re_language)) with 10 in M.
  change (truthy (skipn 9 (firstn n (skipn i (or_else className []))))
          = true).
  apply skipn_truthy. rewrite length_firstn, length_skipn. lia.
Qed.

(** X6: how a code element is shown.  With a language tag in its class it
    is a block labelled with the tag, whatever its text.  Without a tag it
    is shown inline, with its text untouched, when the text has no newline
    and at most 50 characters, and as a block labelled by the guess
    otherwise. *)
Theorem code_views (className : option jsstring) (children : jsstring) :
  (forall l, declared className = Some l ->
     code className children = CodeBlock l (strip children)) /\
  (declared className = None ->
     code className children =
       if includes (strip children) [LF] || (50 <? length (strip children))
       then CodeBlock (autoDetect (strip children)) (strip children)
       else InlineCode children).
Proof.
  split.
  - intros l D. unfold code. rewrite D, (declared_truthy _ _ D).
    rewrite orb_true_r. reflexivity.
  - intros D. unfold code. rewrite D, orb_false_r. reflexivity.
Qed.

End CodeElementFacts.

(* ================================================================== *)
(** * More properties of the question panel *)
(* ================================================================== *)

Module PanelFacts.
Import Api CodeQuestion Terms Wiring CodeQuestionFacts Samples Scenarios.

Lemma passes_same p st st' :
  question st' = question st -> passes p st' = passes p st.
Proof. unfold passes. intros ->. reflexivity. Qed.

(** The state after a submission that sent a request. *)
Lemma step_sent post p st :
  passes p st = true ->
  step p st (Submit post) =
    match post (request_of p st) with
    | inr response =>
        {| question := []; isLoading := false;
           answers := answers st ++ [response]; language := language st |}
    | inl _ =>
        {| question := question st; isLoading := false;
           answers := answers st; language := language st |}
    end.
Proof.
  intros G. unfold step, handle. rewrite (handleSubmit_sent post p st G).
  destruct (post (request_of p st)); reflexivity.
Qed.

(** X7: after an answered submission the input is empty, so submitting
    again at once sends nothing and the log keeps its one new entry. *)
Theorem resubmit_after_answer_sends_nothing post post' p st request response :
  issued (handleSubmit post p st) = [ request ] ->
  post request = inr response ->
  issued (handleSubmit post' p (step p st (Submit post))) = [] /\
  answers (steps p st [ Submit post; Submit post' ])
  = answers st ++ [ response ].
Proof.
  intros I R. destruct (issued_inv post p st request I) as [G ->].
  assert (B : passes p (step p st (Submit post)) = false).
  { rewrite (step_sent post p st G), R. reflexivity. }
  split.
  - rewrite (handleSubmit_blocked post' p _ B). reflexivity.
  - unfold steps. cbn [fold_left]. unfold step at 1. unfold handle.
    rewrite (handleSubmit_blocked post' p _ B). cbn [run fold_left apply].
    rewrite (step_sent post p st G), R. reflexivity.
Qed.

(** X8: after a rejected submission the input and the selection are
    kept, so submitting again sends the same request once more. *)
Theorem retry_after_failure_resends post post' p st request error :
  issued (handleSubmit post p st) = [ request ] ->
  post request = inl error ->
  issued (handleSubmit post' p (step p st (Submit post))) = [ request ].
Proof.
  intros I F. destruct (issued_inv post p st request I) as [G ->].
  rewrite (step_sent post p st G), F.
  rewrite handleSubmit_sent by exact G.
  unfold request_of. cbn [question language].
  destruct (post' _); reflexivity.
Qed.

Lemma step_idle p st e :
  isLoading st = false -> isLoading (step p st e) = false.
Proof.
  intros L. destruct e as [ v | v | | post ].
  - exact L.
  - exact L.
  - unfold step, handle, languageEffect.
    destruct (resultLanguage p) as [ l | ]; [ destruct (truthy l) | ]; exact L.
  - destruct (passes p st) eqn:G.
    + rewrite (step_sent post p st G).
      destruct (post (request_of p st)); reflexivity.
    + unfold step, handle.
      rewrite (handleSubmit_blocked post p st G). exact L.
Qed.

Lemma step_grows p st e :
  length (answers st) <= length (answers (step p st e))
  <= length (answers st) + submits [e].
Proof.
  destruct e as [ v | v | | post ].
  - cbn. lia.
  - cbn. lia.
  - unfold step, handle, languageEffect.
    destruct (resultLanguage p) as [ l | ]; [ destruct (truthy l) | ]; cbn; lia.
  - destruct (passes p st) eqn:G.
    + rewrite (step_sent post p st G).
      destruct (post (request_of p st)); cbn [answers];
        rewrite ?length_app; cbn; lia.
    + unfold step, handle.
      rewrite (handleSubmit_blocked post p st G). cbn. lia.
Qed.

Lemma submits_cons e es : submits (e :: es) = submits [e] + submits es.
Proof. unfold submits. cbn [filter]. destruct e; reflexivity. Qed.

(** X9: between events the panel is never left loading, whatever the
    outcomes of the requests, and the log grows by at most one entry for
    each submission and by none for any other event. *)
Theorem panel_rests_idle_and_log_is_bounded p es : forall st,
  isLoading st = false ->
  isLoading (steps p st es) = false /\
  length (answers st) <= length (answers (steps p st es))
  <= length (answers st) + submits es.
Proof.
  induction es as [ | e es IH ]; intros st L.
  - cbn. split; [ exact L | lia ].
  - unfold steps. cbn [fold_left]. fold (steps p (step p st e) es).
    destruct (IH (step p st e) (step_idle p st e L)) as [I B].
    pose proof (step_grows p st e). rewrite (submits_cons e es).
    split; [ exact I | lia ].
Qed.

(** X10: a new analysis result with a language replaces the language the
    user selected; the next question is sent with that language, and with
    the question and the code as they are. *)
Theorem analysis_language_overrides_selection post p st v l request :
  resultLanguage p = Some l -> truthy l = true ->
  issued (handleSubmit post p
            (steps p st [ ChangeLanguage v; AnalysisResultChanged ]))
  = [ request ] ->
  language_sent request = Some (Text l) /\
  asked request = Some (Text (question st)) /\
  code_sent request = Some (Text (codeContent p)).
Proof.
  intros R T I. apply issued_inv in I. destruct I as [_ ->].
  unfold steps. cbn [fold_left]. unfold step, handle, languageEffect.
  rewrite R, T. cbn. auto.
Qed.

Lemma resubmit_after_answer_sends_nothing_witness :
  issued (handleSubmit (answering (js "Again.")) panel
            (step panel (asking what) (Submit (answering (js "It adds.")))))
  = [] /\
  answers (steps panel (asking what)
             [ Submit (answering (js "It adds."));
               Submit (answering (js "Again.")) ])
  = answers (asking what) ++ [ reply ].
Proof.
  apply (resubmit_after_answer_sends_nothing (answering (js "It adds."))
           (answering (js "Again.")) panel (asking what) sample_request reply);
    reflexivity.
Defined.

Lemma retry_after_failure_resends_witness :
  issued (handleSubmit (answering (js "It adds.")) panel
            (step panel (asking what) (Submit (rejecting _))))
  = [ sample_request ].
Proof.
  apply (retry_after_failure_resends (rejecting _) (answering (js "It adds."))
           panel (asking what) sample_request
           {| detail := Some (js "Service unavailable") |});
    reflexivity.
Defined.

Lemma panel_rests_idle_and_log_is_bounded_witness :
  isLoading (steps panel (asking what)
               [ Submit (rejecting _); ChangeLanguage (js "Rust");
                 Submit (answering (js "It adds.")) ]) = false /\
  length (answers (asking what))
  <= length (answers (steps panel (asking what)
                        [ Submit (rejecting _); ChangeLanguage (js "Rust");
                          Submit (answering (js "It adds.")) ]))
  <= length (answers (asking what))
     + submits [ Submit (rejecting _); ChangeLanguage (js "Rust");
                 Submit (answering (js "It adds.")) ].
Proof.
  apply (panel_rests_idle_and_log_is_bounded panel
           [ Submit (rejecting _); ChangeLanguage (js "Rust");
             Submit (answering (js "It adds.")) ] (asking what)).
  reflexivity.
Defined.

Lemma analysis_language_overrides_selection_witness :
  language_sent sample_request = Some (Text (js "Python")) /\
  asked sample_request = Some (Text (question (asking what))) /\
  code_sent sample_request = Some (Text (codeContent panel)).
Proof.
  apply (analysis_language_overrides_selection (answering (js "It adds."))
           panel (asking what) (js "Rust") (js "Python") sample_request);
    reflexivity.
Defined.

End PanelFacts.

(* ================================================================== *)
(** * More properties of the documentation panel *)
(* ================================================================== *)

Module GenerationFacts.
Import Api DocumentationGenerator Terms Wiring DocumentationGeneratorFacts.

(** The state after a generation from the analyzed text that went
    through. *)
Lemma run_generate post st c content analysis :
  run st (generateFromAnalyzedCode post
            {| codeContent := Some (c :: content);
               analysisResult := Some analysis |}) =
    match post (documentation_request
                  (analyzed_file (c :: content) analysis)) with
    | inr response =>
        {| isGenerating := false; error := None;
           documentation := Some response;
           uploadedFile := Some (analyzed_file (c :: content) analysis) |}
    | inl err =>
        {| isGenerating := false;
           error := Some (or_else (detail err) failure);
           documentation := None;
           uploadedFile := uploadedFile st |}
    end.
Proof.
  unfold generateFromAnalyzedCode, generateDocumentation.
  cbn [codeContent analysisResult truthy negb].
  change {| url := js "/documentation";
            formData := [ (js "file",
                           Upload {| fileBits :=
                                       [ {| blobParts := [c :: content];
                                            blobType := js "text/plain" |} ];
                                     name := or_else
                                       (AnalysisResult.filename analysis)
                                       (js "code.py");
                                     fileType := js "text/plain" |}) ] |}
    with (documentation_request (analyzed_file (c :: content) analysis)).
  destruct (post _); reflexivity.
Qed.

(** The state after a drop that went through. *)
Lemma run_drop post st file rest :
  run st (onDrop post (file :: rest)) =
    match post (documentation_request file) with
    | inr response =>
        {| isGenerating := false; error := None;
           documentation := Some response; uploadedFile := Some file |}
    | inl err =>
        {| isGenerating := false;
           error := Some (or_else (detail err) failure);
           documentation := None; uploadedFile := Some file |}
    end.
Proof.
  unfold onDrop, generateDocumentation.
  change {| url := js "/documentation";
            formData := [ (js "file", Upload file) ] |}
    with (documentation_request file).
  destruct (post _); reflexivity.
Qed.

(** X11: a generation that went through, from a dropped file or from the
    analyzed text, ends with the panel not generating and with exactly one
    of a documentation and an error message, whatever was shown before. *)
Theorem generation_ends_with_one_outcome post st :
  (forall file rest, settled (run st (onDrop post (file :: rest)))) /\
  (forall c content analysis,
      settled (run st (generateFromAnalyzedCode post
                         {| codeContent := Some (c :: content);
                            analysisResult := Some analysis |}))).
Proof.
  split.
  - intros file rest. rewrite run_drop. unfold settled.
    destruct (post _) as [ e | r ]; cbn; split; eauto.
  - intros c content analysis. rewrite run_generate. unfold settled.
    destruct (post _) as [ e | r ]; cbn; split; eauto.
Qed.

(** X12: what the download button gives after a generation from the
    analyzed text: the documentation as it was received, under the
    download name of the file name in the response; nothing at all when the
    generation failed, even if a documentation was shown before it. *)
Theorem download_after_generation post st c content analysis :
  downloadDocumentation
    (run st (generateFromAnalyzedCode post
               {| codeContent := Some (c :: content);
                  analysisResult := Some analysis |})) =
    match post (documentation_request
                  (analyzed_file (c :: content) analysis)) with
    | inr response =>
        [ Click {| href := markdown_blob response;
                   download :=
                     downloadName (DocumentationResponse.filename response) |} ]
    | inl _ => []
    end.
Proof.
  rewrite run_generate. destruct (post _); reflexivity.
Qed.

(** X13: for every file name the download name is a prefix of the file name
    followed by "_documentation.md"; what is cut off is nothing, or the
    final extension. *)
Theorem download_name_keeps_stem (filename : jsstring) :
  exists stem rest,
    filename = stem ++ rest /\
    downloadName filename = stem ++ js "_documentation.md" /\
    (rest = [] \/ exists ext, rest = dot :: ext /\
                              has_extension filename stem ext).
Proof.
  destruct (search false (atoms re_extension) None filename)
    as [ [i n] | ] eqn:E.
  - destruct (search_sound _ _ _ _ E) as (base & ext & F & NE & A).
    apply plain_all in A as [D S].
    assert (H : has_extension filename base ext)
      by (unfold has_extension; auto).
    exists base, (dot :: ext). split; [ exact F | split ].
    + apply (downloadName_extension _ base ext H).
    + right. exists ext. auto.
  - exists filename, []. split; [ symmetry; apply app_nil_r | split ].
    + apply downloadName_plain. intros base ext (-> & NE & D & S).
      assert (A : forallb (mem plain) ext = true) by (apply plain_all; auto).
      rewrite (search_extension base ext None NE A) in E. discriminate.
    + left. reflexivity.
Qed.

End GenerationFacts.

(* ================================================================== *)
(** * Properties of the upload and of the top-level view *)
(* ================================================================== *)

Module AppFacts.
Import Api Terms Wiring Samples Scenarios.

(** The calls of a drop on the upload widget. *)
Lemma onDrop_calls post file rest :
  FileUpload.onDrop post (file :: rest) =
    [ FileUpload.SetUploadedFile (Some file); FileUpload.SetIsUploading true;
      FileUpload.SetError None; FileUpload.Issue (analyze_request file) ]
    ++ match post (analyze_request file) with
       | inr result => [ FileUpload.ReadAsText file result ]
       | inl err =>
           [ FileUpload.SetError
               (Some (or_else (detail err) FileUpload.failure)) ]
       end
    ++ [ FileUpload.SetIsUploading false ].
Proof. reflexivity. Qed.

(** X14: a failed analysis leaves the analyzed file of the top-level view
    as it was; the upload widget shows the message of the service, or the
    fallback message, and is no longer uploading.  An empty drop does
    nothing at all. *)
Theorem failed_analysis_keeps_analyzed_file post file rest err app st :
  post (analyze_request file) = inl err ->
  App.dropped post (file :: rest) app = app /\
  FileUpload.run st (FileUpload.onDrop post (file :: rest)) =
    {| FileUpload.isUploading := false;
       FileUpload.error := Some (or_else (detail err) FileUpload.failure);
       FileUpload.uploadedFile := Some file |} /\
  FileUpload.onDrop post [] = [].
Proof.
  intros F. unfold App.dropped. rewrite onDrop_calls, F. cbn. auto.
Qed.

(** The state of the top-level view after a successful analysis. *)
Lemma dropped_analysed post file rest result app :
  post (analyze_request file) = inr result ->
  App.dropped post (file :: rest) app =
    {| App.activeTab := App.activeTab app;
       App.analysisResult := Some result;
       App.codeContent := text file |}.
Proof.
  intros S. unfold App.dropped. rewrite onDrop_calls, S. reflexivity.
Qed.


(** X16: after a successful analysis of an empty file the result is shown,
    but neither panel sends anything: the documentation action and the
    question form do nothing. *)
Theorem empty_file_leaves_panels_idle post file rest result app dpost
    qpost qst :
  post (analyze_request file) = inr result ->
  text file = [] ->
  App.analysisResult (App.dropped post (file :: rest) app) = Some result /\
  DocumentationGenerator.generateFromAnalyzedCode dpost
    (App.documentationProps (App.dropped post (file :: rest) app)) = [] /\
  CodeQuestion.issued
    (CodeQuestion.handleSubmit qpost
       (App.questionProps (App.dropped post (file :: rest) app)) qst) = [].
Proof.
  intros S E. rewrite (dropped_analysed post file rest result app S), E.
  split; [ reflexivity | split ].
  - reflexivity.
  - rewrite CodeQuestionFacts.handleSubmit_blocked; [ reflexivity | ].
    unfold passes. apply andb_false_r.
Qed.

Lemma failed_analysis_keeps_analyzed_file_witness :
  App.dropped (rejecting _) [ picked ] App.initial = App.initial /\
  FileUpload.run idle_upload (FileUpload.onDrop (rejecting _) [ picked ]) =
    {| FileUpload.isUploading := false;
       FileUpload.error := Some (js "Service unavailable");
       FileUpload.uploadedFile := Some picked |} /\
  FileUpload.onDrop (rejecting AnalysisResult.t) [] = [].
Proof.
  apply (failed_analysis_keeps_analyzed_file (rejecting _) picked []
           {| detail := Some (js "Service unavailable") |}
           App.initial idle_upload).
  reflexivity.
Defined.


Lemma empty_file_leaves_panels_idle_witness :
  App.analysisResult
    (App.dropped (analysing unnamed) [ blank_file ] App.initial)
  = Some unnamed /\
  DocumentationGenerator.generateFromAnalyzedCode (rejecting _)
    (App.documentationProps
       (App.dropped (analysing unnamed) [ blank_file ] App.initial)) = [] /\
  CodeQuestion.issued
    (CodeQuestion.handleSubmit (answering (js "It adds."))
       (App.questionProps
          (App.dropped (analysing unnamed) [ blank_file ] App.initial))
       (asking what)) = [].
Proof.
  apply (empty_file_leaves_panels_idle (analysing unnamed) blank_file []
           unnamed App.initial (rejecting _) (answering (js "It adds."))
           (asking what));
    reflexivity.
Defined.

End AppFacts.

(* ================================================================== *)
(** * More properties of the analysis display *)
(* ================================================================== *)

Module DisplayFacts.
Import Api CodeAnalysis Terms Samples FloatFacts FloatBounds CodeAnalysisFacts.

Lemma SFcompare_refl (x : spec_float) :
  x = S754_nan \/ SFcompare x x = Some Eq.
Proof.
  destruct x as [ s | s | | s m e ]; cbn [SFcompare]; auto; right.
  - destruct s; reflexivity.
  - rewrite Z.compare_refl, Pos.compare_cont_refl. destruct s; reflexivity.
Qed.

(** NaN is below nothing. *)
Lemma nan_not_ltb (s a : float) :
  is_nan s = true -> (s <? a)%float = false.
Proof.
  unfold is_nan. rewrite FloatAxioms.eqb_spec, ltb_spec.
  unfold SFeqb, SFltb.
  destruct (SFcompare_refl (Prim2SF s)) as [ -> | -> ];
    [ reflexivity | discriminate ].
Qed.


(** X17: the complexity color is red exactly when the score is at least 6
    or is not a number. *)
Theorem complexity_red_iff (r : AnalysisResult.t) :
  complexityClass r = red <->
  (6 <=? score r)%float = true \/ is_nan (score r) = true.
Proof.
  unfold complexityClass, getComplexityColor. fold (score r). split.
  - destruct (score r <? 3)%float eqn:H3;
      [ intros H; vm_compute in H; discriminate | ].
    destruct (score r <? 6)%float eqn:H6;
      [ intros H; vm_compute in H; discriminate | ].
    intros _. destruct (is_nan (score r)) eqn:N; [ auto | left ].
    apply not_ltb_leb; auto.
  - intros [ H | H ].
    + rewrite (six_le_not_lt_three _ H), (leb_not_ltb _ _ H). reflexivity.
    + rewrite !(nan_not_ltb _ _ H). reflexivity.
Qed.

(** X18: the quality paragraph is there exactly when the score is not
    null, and it has the neutral gray class exactly when the score is a
    zero or is not a number. *)
Theorem quality_paragraph_gray_iff (r : AnalysisResult.t) :
  (qualityClass r = None <->
   AnalysisResult.code_quality_score (AnalysisResult.ai_enhancement r) = None)
  /\
  (qualityClass r = Some gray <->
   exists x,
     AnalysisResult.code_quality_score (AnalysisResult.ai_enhancement r)
     = Some x /\ (is_zero x || is_nan x) = true).
Proof.
  unfold qualityClass.
  destruct (AnalysisResult.code_quality_score
              (AnalysisResult.ai_enhancement r)) as [ x | ].
  - split; [ split; discriminate | ]. split.
    + intros H. injection H as H. apply quality_gray_iff_falsy in H.
      exists x. auto.
    + intros (y & E & F). injection E as <-. f_equal.
      apply quality_gray_iff_falsy. exact F.
  - split; [ tauto | ]. split; [ discriminate | ].
    intros (y & E & _). discriminate.
Qed.


(** X19: for an analysis result whose quality score is a number other
    than zero, the quality paragraph is green for a score of at least 8,
    yellow for a score of at least 6 and below 8, and red for a score
    below 6. *)
Theorem quality_paragraph_thresholds (r : AnalysisResult.t) (x : float) :
  AnalysisResult.code_quality_score (AnalysisResult.ai_enhancement r)
  = Some x ->
  (is_zero x || is_nan x) = false ->
  ((8 <=? x)%float = true -> qualityClass r = Some green) /\
  ((6 <=? x)%float = true -> (x <? 8)%float = true ->
     qualityClass r = Some yellow) /\
  ((x <? 6)%float = true -> qualityClass r = Some red).
Proof.
  intros E F. unfold qualityClass. rewrite E.
  destruct (quality_color_thresholds x F) as (G & Y & R).
  split; [ | split ].
  - intros H. rewrite (G H). reflexivity.
  - intros H6 H8. rewrite (Y H6 H8). reflexivity.
  - intros H. rewrite (R H). reflexivity.
Qed.

Lemma quality_paragraph_thresholds_witness :
  ((8 <=? 7.5)%float = true ->
     qualityClass (scored 5 (Some 7.5%float)) = Some green) /\
  ((6 <=? 7.5)%float = true -> (7.5 <? 8)%float = true ->
     qualityClass (scored 5 (Some 7.5%float)) = Some yellow) /\
  ((7.5 <? 6)%float = true ->
     qualityClass (scored 5 (Some 7.5%float)) = Some red).
Proof.
  apply (quality_paragraph_thresholds (scored 5 (Some 7.5%float)) 7.5%float);
    reflexivity.
Defined.

(** X20: the structure card lists the first functions of the analysis, in
    order and at most ten.  The note of a function with a docstring is its
    first 100 characters followed by an ellipsis, also when nothing was
    cut; a function with an empty docstring or none has no note. *)
Theorem function_cards_cut (functions : list FunctionInfo) :
  length (functionCards functions) = Nat.min 10 (length functions) /\
  (forall i, i < 10 ->
     nth_error (functionCards functions) i
     = option_map functionCard (nth_error functions i)) /\
  (forall f, note (functionCard f) =
     match docstring f with
     | Some (x :: d) => Some (firstn 100 (x :: d) ++ js "...")
     | _ => None
     end) /\
  (forall f d, docstring f = Some d -> d <> [] -> length d <= 100 ->
     note (functionCard f) = Some (d ++ js "...")).
Proof.
  unfold functionCards. split; [ | split; [ | split ] ].
  - rewrite length_map, length_firstn. reflexivity.
  - intros i L. rewrite nth_error_map, nth_error_firstn.
    apply Nat.ltb_lt in L. rewrite L. reflexivity.
  - intros f. cbn [functionCard note]. unfold preview.
    destruct (docstring f) as [ [ | x d ] | ]; reflexivity.
  - intros f d E NE L. cbn [functionCard note]. unfold preview. rewrite E.
    destruct d as [ | x d ]; [ congruence | ]. cbn [truthy].
    rewrite firstn_all2 by exact L. reflexivity.
Qed.

End DisplayFacts.
